(** * Deep Research Clone: a shallow embedding of [app.py]

    The script is a Streamlit page: every user interaction re-runs [main]
    from the top, with [st.session_state] surviving from one run to the next.
    The embedding threads an explicit state (session store, a clock counting
    the model calls, and the log of what the run displayed and requested)
    through a small state-and-exception monad.  Everything outside the
    script (the environment variable, the widgets' current values, the model
    service and [json.loads]) is a field of the record [World]. *)

From Stdlib Require Import String Ascii List ZArith Bool Arith Lia.
From Stdlib Require Import DecimalString DecimalNat.
Import ListNotations.
Local Open Scope string_scope.
Local Open Scope list_scope.
Local Open Scope nat_scope.
Set Warnings "-register-all".

(** ** Python strings

    Characters are the code points below 256, so that [ascii] holds one
    character. *)

Definition newline : ascii := "010"%char.
Definition dq : string := String (ascii_of_nat 34) EmptyString.

(** [str.isspace] on one character. *)
Definition isspace (c : ascii) : bool :=
  let n := nat_of_ascii c in
  ((9 <=? n) && (n <=? 13)) || ((28 <=? n) && (n <=? 32))
  || (n =? 133) || (n =? 160).

Definition is_empty_str (s : string) : bool :=
  match s with EmptyString => true | String _ _ => false end.

Fixpoint lstrip (s : string) : string :=
  match s with
  | EmptyString => EmptyString
  | String c r => if isspace c then lstrip r else s
  end.

Fixpoint rstrip (s : string) : string :=
  match s with
  | EmptyString => EmptyString
  | String c r =>
      let r' := rstrip r in
      if isspace c && is_empty_str r' then EmptyString else String c r'
  end.

(** [s.strip()] *)
Definition strip (s : string) : string := rstrip (lstrip s).

Definition lower_char (c : ascii) : ascii :=
  let n := nat_of_ascii c in
  if ((65 <=? n) && (n <=? 90)) || ((192 <=? n) && (n <=? 214))
     || ((216 <=? n) && (n <=? 222))
  then ascii_of_nat (n + 32) else c.

(** [s.lower()] *)
Fixpoint lower (s : string) : string :=
  match s with
  | EmptyString => EmptyString
  | String c r => String (lower_char c) (lower r)
  end.

(** [needle in hay] on strings. *)
Fixpoint str_in (needle hay : string) : bool :=
  String.prefix needle hay
  || match hay with
     | EmptyString => false
     | String _ r => str_in needle r
     end.

(** [s.split(sep)] for a one-character separator. *)
Fixpoint split (sep : ascii) (s : string) : list string :=
  match s with
  | EmptyString => [EmptyString]
  | String c r =>
      if Ascii.eqb c sep then EmptyString :: split sep r
      else match split sep r with
           | [] => [String c EmptyString]
           | h :: t => String c h :: t
           end
  end.

(** [sep.join(l)] *)
Fixpoint join (sep : ascii) (l : list string) : string :=
  match l with
  | [] => EmptyString
  | [x] => x
  | x :: r => (x ++ String sep (join sep r))%string
  end.

Fixpoint count_char (c : ascii) (s : string) : nat :=
  match s with
  | EmptyString => 0
  | String a r => (if Ascii.eqb a c then 1 else 0) + count_char c r
  end.

(** [a == b] on lists of strings. *)
Fixpoint str_list_eqb (a b : list string) : bool :=
  match a, b with
  | [], [] => true
  | x :: a', y :: b' => String.eqb x y && str_list_eqb a' b'
  | _, _ => false
  end.

(** [str(i)] for a non-negative integer. *)
Definition str_of_nat (i : nat) : string :=
  NilEmpty.string_of_uint (Nat.to_uint i).

(** ** Python values produced by [json.loads]

    Numbers are the integers; floating-point numbers are outside the model. *)

Inductive pyval : Type :=
| PNone
| PBool (b : bool)
| PInt (n : Z)
| PStr (s : string)
| PList (l : list pyval)
| PDict (d : list (string * pyval)).

Fixpoint assoc {A : Type} (k : string) (d : list (string * A)) : option A :=
  match d with
  | [] => None
  | (k', v) :: r => if String.eqb k k' then Some v else assoc k r
  end.

(** [a == b] *)
Fixpoint py_eq (a b : pyval) {struct a} : bool :=
  match a, b with
  | PNone, PNone => true
  | PBool x, PBool y => Bool.eqb x y
  | PBool x, PInt n => Z.eqb (if x then 1 else 0) n
  | PInt n, PBool x => Z.eqb n (if x then 1 else 0)
  | PInt m, PInt n => Z.eqb m n
  | PStr s, PStr t => String.eqb s t
  | PList l, PList l' =>
      (fix go (l l' : list pyval) {struct l} : bool :=
         match l, l' with
         | [], [] => true
         | x :: xs, y :: ys => py_eq x y && go xs ys
         | _, _ => false
         end) l l'
  | PDict d, PDict d' =>
      Nat.eqb (length d) (length d')
      && (fix every (d : list (string * pyval)) {struct d} : bool :=
            match d with
            | [] => true
            | (k, v) :: r =>
                match assoc k d' with
                | Some v' => py_eq v v'
                | None => false
                end && every r
            end) d
  | _, _ => false
  end.

(** ** Exceptions *)

Inductive exn : Type :=
| JSONDecodeError
| IndexError
| AttributeError
| KeyError (k : string)
| TypeError
| APIError.

(** [v[k]] for a string key [k]. *)
Definition getitem (v : pyval) (k : string) : exn + pyval :=
  match v with
  | PDict d => match assoc k d with
               | Some x => inr x
               | None => inl (KeyError k)
               end
  | _ => inl TypeError
  end.

(** The values a [for] loop draws from [v]. *)
Definition py_iter (v : pyval) : exn + list pyval :=
  match v with
  | PList l => inr l
  | PStr s => inr (map (fun c => PStr (String c EmptyString)) (list_ascii_of_string s))
  | PDict d => inr (map (fun kv => PStr (fst kv)) d)
  | _ => inl TypeError
  end.

(** ** The model service *)

Record SearchResult : Type := {
  query : pyval;
  resp_id : string;
  research_output : string
}.

(** An f-string is kept as the sequence of its parts; [str], [repr] and
    [json.dumps] of the interpolated values are not expanded. *)
Inductive Piece : Type :=
| Lit (s : string)
| FmtStr (s : string)
| FmtList (l : list string)
| FmtVal (v : pyval)
| JsonDumps (c : list SearchResult).

Definition fstring : Type := list Piece.

Inductive Input : Type :=
| InputText (p : fstring)
| InputMessages (ms : list (string * fstring)).

Record Request : Type := {
  model : string;
  input : Input;
  instructions : option string;
  previous_response_id : option (option string);
  tools : option (list (list (string * string)));
  include : option (list string)
}.

(** [text] is [None] for a part that has no attribute 'text'. *)
Record ContentPart : Type := { text : option string }.

(** An attribute of an object of the service: the object has no such
    attribute, or has it with the value None, or has it with a value. *)
Inductive attribute (A : Type) : Type :=
| Absent
| IsNone
| Has (a : A).
Arguments Absent {A}.
Arguments IsNone {A}.
Arguments Has {A} a.

Record OutputItem : Type := {
  item_id : string;
  content : attribute (list ContentPart)
}.

Record Response : Type := {
  id : string;
  output : list OutputItem
}.

Record OpenAI : Type := { api_key : string }.

Definition MODEL : string := "gpt-4.1".
Definition MODEL_MINI : string := "gpt-4.1-mini".
Definition TOOLS : list (list (string * string)) := [[("type", "web_search")]].
Definition INCLUDE_RESULTS : list string := ["web_search_call.results"].
Definition DEVELOPER_MESSAGE : string := "You are a deep researcher".

(** ** The page, the session store and the world *)

Inductive Event : Type :=
| EvTitle (s : string)
| EvWrite (v : pyval)
| EvError (s : string)
| EvInfo (s : string)
| EvSuccess (s : string)
| EvWarning (s : string)
| EvSubheader (s : string)
| EvMarkdown (s : string)
| EvSpinner (p : fstring)
| EvTextInput (label key : string)
| EvButton (label key : string)
| EvNewClient (k : string)
| EvApiCall (n : nat) (r : Request).

(** The keys of [st.session_state] that the script reads and writes; [None]
    is an absent key. *)
Record SessionState : Type := {
  ss_clarify : option (list string);
  ss_last_topic : option string;
  ss_goal_plan : option pyval;
  ss_clarify_id : option string;
  ss_last_answers : option (list string);
  ss_research_started : option bool;
  ss_collected : option (list SearchResult);
  ss_queries : option pyval
}.

Definition empty_session : SessionState :=
  {| ss_clarify := None; ss_last_topic := None; ss_goal_plan := None;
     ss_clarify_id := None; ss_last_answers := None;
     ss_research_started := None; ss_collected := None; ss_queries := None |}.

Record State : Type := {
  session_state : SessionState;
  clock : nat;
  log : list Event
}.

Definition initial_state : State :=
  {| session_state := empty_session; clock := 0; log := [] |}.

Record World : Type := {
  OPENAI_API_KEY : option string;
  ui_text : string -> string;
  ui_button : string -> bool;
  responses_create : nat -> Request -> option Response;
  json_loads : string -> option pyval
}.

(** ** The monad *)

Inductive Outcome (A : Type) : Type :=
| Returned (a : A)
| Raised (e : exn)
| Stopped.
Arguments Returned {A} a.
Arguments Raised {A} e.
Arguments Stopped {A}.

Definition M (A : Type) : Type := State -> Outcome A * State.

Definition ret {A : Type} (a : A) : M A := fun s => (Returned a, s).

Definition bind {A B : Type} (m : M A) (k : A -> M B) : M B :=
  fun s =>
    match m s with
    | (Returned a, s') => k a s'
    | (Raised e, s') => (Raised e, s')
    | (Stopped, s') => (Stopped, s')
    end.

Definition raise {A : Type} (e : exn) : M A := fun s => (Raised e, s).

(** [st.stop()] *)
Definition st_stop {A : Type} : M A := fun s => (Stopped, s).

Definition lift {A : Type} (r : exn + A) : M A :=
  match r with
  | inl e => raise e
  | inr a => ret a
  end.

Notation "x <- m ;; k" := (bind m (fun x => k))
  (at level 61, m at next level, right associativity).
Notation "m ;; k" := (bind m (fun _ => k))
  (at level 61, right associativity).

Definition emit (e : Event) : M unit :=
  fun s => (Returned tt,
            {| session_state := session_state s; clock := clock s;
               log := log s ++ [e] |}).

Definition get_session : M SessionState :=
  fun s => (Returned (session_state s), s).

Definition modify_session (f : SessionState -> SessionState) : M unit :=
  fun s => (Returned tt,
            {| session_state := f (session_state s); clock := clock s;
               log := log s |}).

Definition set_clarify (v : list string) (ss : SessionState) : SessionState :=
  {| ss_clarify := Some v; ss_last_topic := ss_last_topic ss;
     ss_goal_plan := ss_goal_plan ss; ss_clarify_id := ss_clarify_id ss;
     ss_last_answers := ss_last_answers ss;
     ss_research_started := ss_research_started ss;
     ss_collected := ss_collected ss; ss_queries := ss_queries ss |}.

Definition set_last_topic (v : string) (ss : SessionState) : SessionState :=
  {| ss_clarify := ss_clarify ss; ss_last_topic := Some v;
     ss_goal_plan := ss_goal_plan ss; ss_clarify_id := ss_clarify_id ss;
     ss_last_answers := ss_last_answers ss;
     ss_research_started := ss_research_started ss;
     ss_collected := ss_collected ss; ss_queries := ss_queries ss |}.

Definition set_goal_plan (v : pyval) (ss : SessionState) : SessionState :=
  {| ss_clarify := ss_clarify ss; ss_last_topic := ss_last_topic ss;
     ss_goal_plan := Some v; ss_clarify_id := ss_clarify_id ss;
     ss_last_answers := ss_last_answers ss;
     ss_research_started := ss_research_started ss;
     ss_collected := ss_collected ss; ss_queries := ss_queries ss |}.

Definition set_clarify_id (v : string) (ss : SessionState) : SessionState :=
  {| ss_clarify := ss_clarify ss; ss_last_topic := ss_last_topic ss;
     ss_goal_plan := ss_goal_plan ss; ss_clarify_id := Some v;
     ss_last_answers := ss_last_answers ss;
     ss_research_started := ss_research_started ss;
     ss_collected := ss_collected ss; ss_queries := ss_queries ss |}.

Definition set_last_answers (v : list string) (ss : SessionState) : SessionState :=
  {| ss_clarify := ss_clarify ss; ss_last_topic := ss_last_topic ss;
     ss_goal_plan := ss_goal_plan ss; ss_clarify_id := ss_clarify_id ss;
     ss_last_answers := Some v;
     ss_research_started := ss_research_started ss;
     ss_collected := ss_collected ss; ss_queries := ss_queries ss |}.

Definition set_research_started (v : bool) (ss : SessionState) : SessionState :=
  {| ss_clarify := ss_clarify ss; ss_last_topic := ss_last_topic ss;
     ss_goal_plan := ss_goal_plan ss; ss_clarify_id := ss_clarify_id ss;
     ss_last_answers := ss_last_answers ss;
     ss_research_started := Some v;
     ss_collected := ss_collected ss; ss_queries := ss_queries ss |}.

Definition set_collected (v : list SearchResult) (ss : SessionState) : SessionState :=
  {| ss_clarify := ss_clarify ss; ss_last_topic := ss_last_topic ss;
     ss_goal_plan := ss_goal_plan ss; ss_clarify_id := ss_clarify_id ss;
     ss_last_answers := ss_last_answers ss;
     ss_research_started := ss_research_started ss;
     ss_collected := Some v; ss_queries := ss_queries ss |}.

Definition set_queries (v : pyval) (ss : SessionState) : SessionState :=
  {| ss_clarify := ss_clarify ss; ss_last_topic := ss_last_topic ss;
     ss_goal_plan := ss_goal_plan ss; ss_clarify_id := ss_clarify_id ss;
     ss_last_answers := ss_last_answers ss;
     ss_research_started := ss_research_started ss;
     ss_collected := ss_collected ss; ss_queries := Some v |}.

(** ** The script *)

Section Script.

Variable w : World.

Definition st_title (s : string) : M unit := emit (EvTitle s).
Definition st_write (v : pyval) : M unit := emit (EvWrite v).
Definition st_error (s : string) : M unit := emit (EvError s).
Definition st_info (s : string) : M unit := emit (EvInfo s).
Definition st_success (s : string) : M unit := emit (EvSuccess s).
Definition st_warning (s : string) : M unit := emit (EvWarning s).
Definition st_subheader (s : string) : M unit := emit (EvSubheader s).
Definition st_markdown (s : string) : M unit := emit (EvMarkdown s).
Definition st_spinner (p : fstring) : M unit := emit (EvSpinner p).

Definition st_text_input (label key : string) : M string :=
  emit (EvTextInput label key);; ret (ui_text w key).

Definition st_button (label key : string) : M bool :=
  emit (EvButton label key);; ret (ui_button w key).

(** [client.responses.create(...)]: the call is logged with the clock's
    reading, the clock advances, and the service answers or fails. *)
Definition responses_create_on (client : OpenAI) (r : Request) : M Response :=
  fun s =>
    let s' := {| session_state := session_state s; clock := S (clock s);
                 log := log s ++ [EvApiCall (clock s) r] |} in
    match responses_create w (clock s) r with
    | Some resp => (Returned resp, s')
    | None => (Raised APIError, s')
    end.

(** [resp.output[i]] *)
Definition output_at (resp : Response) (i : nat) : exn + OutputItem :=
  match nth_error (output resp) i with
  | Some it => inr it
  | None => inl IndexError
  end.

(** [item.content[0].text] *)
Definition content0_text (it : OutputItem) : exn + string :=
  match content it with
  | Absent => inl AttributeError
  | IsNone => inl TypeError
  | Has parts =>
      match nth_error parts 0 with
      | None => inl IndexError
      | Some part =>
          match text part with
          | None => inl AttributeError
          | Some t => inr t
          end
      end
  end.

(** [resp.output[i].content[0].text] *)
Definition output_text (resp : Response) (i : nat) : exn + string :=
  match output_at resp i with
  | inl e => inl e
  | inr it => content0_text it
  end.

Definition get_openai_client : M OpenAI :=
  let halt :=
    st_error "OPENAI_API_KEY not set. Please set it in your environment or .env file.";;
    st_stop in
  match OPENAI_API_KEY w with
  | None => halt
  | Some api_key =>
      if is_empty_str api_key then halt
      else emit (EvNewClient api_key);; ret {| api_key := api_key |}
  end.

Definition get_topic : M string :=
  raw <- st_text_input "Research topic:" "topic";;
  ret (strip raw).

Definition nl : string := String newline EmptyString.

Definition clarify_request (topic : string) : Request :=
  {| model := MODEL_MINI;
     input := InputText
       [Lit (nl ++ "Ask 5 numbered clarifying questions to about: ");
        FmtStr topic;
        Lit ("." ++ nl
             ++ "The goal of the questions is to understand the intended purpose of the research."
             ++ nl ++ "Reply only with the questions.")];
     instructions := Some DEVELOPER_MESSAGE;
     previous_response_id := None;
     tools := None;
     include := None |}.

Definition get_clarifying_questions (client : OpenAI) (topic : string)
  : M (list string) :=
  clarify <- responses_create_on client (clarify_request topic);;
  t <- lift (output_text clarify 0);;
  let questions := split newline t in
  ret questions.

Definition answer_key (i : nat) : string := "answer_" ++ str_of_nat i.

(** The loop of [get_answers], entered at index [i] with the answers
    gathered so far. *)
Fixpoint get_answers_from (i : nat) (questions answers : list string)
  : M (list string) :=
  match questions with
  | [] => ret answers
  | question :: rest =>
      answer <- st_text_input question (answer_key i);;
      get_answers_from (S i) rest (answers ++ [answer])
  end.

Definition get_answers (questions : list string) : M (list string) :=
  get_answers_from 0 questions [].

Definition plan_request (topic : string) (answers : list string)
  (clarify_id : option string) : Request :=
  {| model := MODEL;
     input := InputText
       [Lit (nl ++ "Using the user answers ");
        FmtList answers;
        Lit ", write a short goal sentence for the research about ";
        FmtStr topic;
        Lit ("." ++ nl
             ++ "Output a JSON list of 5 web search queries that will reach it."
             ++ nl ++ "Format: {" ++ dq ++ "goal" ++ dq ++ ": " ++ dq ++ "..." ++ dq
             ++ ", " ++ dq ++ "queries" ++ dq ++ ": [" ++ dq ++ "q1" ++ dq
             ++ ", ...]}" ++ nl)];
     instructions := Some DEVELOPER_MESSAGE;
     previous_response_id := Some clarify_id;
     tools := None;
     include := None |}.

(** [json.loads(s)] *)
Definition loads (s : string) : exn + pyval :=
  match json_loads w s with
  | Some v => inr v
  | None => inl JSONDecodeError
  end.

Definition get_goal_and_queries (client : OpenAI) (topic : string)
  (answers : list string) (clarify_id : option string) : M (pyval * string) :=
  goal_and_queries <- responses_create_on client (plan_request topic answers clarify_id);;
  t <- lift (output_text goal_and_queries 0);;
  plan <- lift (loads t);;
  ret (plan, id goal_and_queries).

Definition search_request (q : pyval) : Request :=
  {| model := MODEL;
     input := InputText [Lit "Search: "; FmtVal q];
     instructions := None;
     previous_response_id := None;
     tools := Some TOOLS;
     include := Some INCLUDE_RESULTS |}.

Definition run_search (client : OpenAI) (q : pyval) : M SearchResult :=
  resp <- responses_create_on client (search_request q);;
  out0 <- lift (output_at resp 0);;
  t <- lift (output_text resp 1);;
  ret {| query := q; resp_id := item_id out0; research_output := t |}.

Definition review_request (goal : pyval) (collected : list SearchResult) : Request :=
  {| model := MODEL;
     input := InputMessages
       [("developer", [Lit "Research goal: "; FmtVal goal]);
        ("assistant", [JsonDumps collected]);
        ("user", [Lit "Does this information fully satisfy the goal? Answer Yes or No only."])];
     instructions := Some DEVELOPER_MESSAGE;
     previous_response_id := None;
     tools := None;
     include := None |}.

Definition evaluate (client : OpenAI) (goal : pyval)
  (collected : list SearchResult) : M bool :=
  review <- responses_create_on client (review_request goal collected);;
  t <- lift (output_text review 0);;
  ret (str_in "yes" (lower t)).

Definition synthesis_request (goal : pyval) (collected : list SearchResult) : Request :=
  {| model := MODEL;
     input := InputMessages
       [("developer",
         [Lit "Write a complete answer that meets the goal: "; FmtVal goal;
          Lit (". " ++ "Cite sources inline using [n] and append a reference "
               ++ "list mapping [n] to url.")]);
        ("assistant", [JsonDumps collected])];
     instructions := Some DEVELOPER_MESSAGE;
     previous_response_id := None;
     tools := None;
     include := None |}.

Definition synthesize (client : OpenAI) (goal : pyval)
  (collected : list SearchResult) : M string :=
  final <- responses_create_on client (synthesis_request goal collected);;
  lift (output_text final 0).

(** [main], lines 118-123: the clarifying questions, asked afresh or taken
    from the session. *)
Definition main_questions (client : OpenAI) (topic : string) : M (list string) :=
  ss <- get_session;;
  let fresh :=
    questions <- get_clarifying_questions client topic;;
    modify_session (set_clarify questions);;
    modify_session (set_last_topic topic);;
    ret questions in
  match ss_clarify ss, ss_last_topic ss with
  | Some cached, Some last =>
      if negb (String.eqb last topic) then fresh else ret cached
  | _, _ => fresh
  end.

(** [main], lines 132-139: the plan and the id of the response that gave it. *)
Definition main_plan (client : OpenAI) (topic : string) (answers : list string)
  : M (pyval * string) :=
  ss <- get_session;;
  let fresh :=
    r <- get_goal_and_queries client topic answers None;;
    modify_session (set_goal_plan (fst r));;
    modify_session (set_clarify_id (snd r));;
    modify_session (set_last_answers answers);;
    ret r in
  match ss_goal_plan ss, ss_last_answers ss with
  | Some plan, Some last =>
      if negb (str_list_eqb last answers) then fresh
      else match ss_clarify_id ss with
           | Some clarify_id => ret (plan, clarify_id)
           | None => raise (KeyError "clarify_id")
           end
  | _, _ => fresh
  end.

(** [any(item['query'] == q for item in collected)] *)
Definition already_collected (q : pyval) (collected : list SearchResult) : bool :=
  existsb (fun item => py_eq (query item) q) collected.

(** One turn of the loop of lines 153-159; the value is the list that the
    variable [collected] names after the turn. *)
Definition research_turn (client : OpenAI) (queries_to_run : pyval)
  (collected : list SearchResult) (q : pyval) : M (list SearchResult) :=
  if negb (already_collected q collected) then
    st_spinner [Lit "Searching: "; FmtVal q];;
    result <- run_search client q;;
    let collected := collected ++ [result] in
    modify_session (set_collected collected);;
    modify_session (set_queries queries_to_run);;
    ret collected
  else ret collected.

Fixpoint research_loop (client : OpenAI) (queries_to_run : pyval)
  (qs : list pyval) (collected : list SearchResult) : M (list SearchResult) :=
  match qs with
  | [] => ret collected
  | q :: rest =>
      collected <- research_turn client queries_to_run collected q;;
      research_loop client queries_to_run rest collected
  end.

Definition more_request (collected : list SearchResult)
  (clarify_id : string) : Request :=
  {| model := MODEL;
     input := InputMessages
       [("assistant", [Lit "Current data: "; JsonDumps collected]);
        ("user", [Lit "We still haven't met the goal. Give 5 more, new, high-value web search queries only as a JSON list."])];
     instructions := None;
     previous_response_id := Some (Some clarify_id);
     tools := None;
     include := None |}.

(** [main], lines 161-179. *)
Definition main_evaluate (client : OpenAI) (goal : pyval)
  (collected : list SearchResult) (clarify_id : string) : M unit :=
  satisfied <- evaluate client goal collected;;
  if satisfied then
    st_success "Goal satisfied! Generating final report...";;
    final_report <- synthesize client goal collected;;
    st_markdown final_report;;
    modify_session (set_research_started false);;
    modify_session (set_collected [])
  else
    more <- responses_create_on client (more_request collected clarify_id);;
    t <- lift (output_text more 0);;
    queries <- lift (loads t);;
    modify_session (set_queries queries);;
    st_warning "More research needed. New queries generated. Click 'Run Research' again.".

(** [main], lines 149-179. *)
Definition main_research (client : OpenAI) (goal queries : pyval)
  (clarify_id : string) : M unit :=
  pressed <- st_button "Run Research" "run_research";;
  ss <- get_session;;
  if pressed || match ss_research_started ss with Some b => b | None => false end
  then
    modify_session (set_research_started true);;
    let collected := match ss_collected ss with Some c => c | None => [] end in
    let queries_to_run :=
      match collected with
      | [] => queries
      | _ :: _ => match ss_queries ss with Some qs => qs | None => queries end
      end in
    qs <- lift (py_iter queries_to_run);;
    collected <- research_loop client queries_to_run qs collected;;
    main_evaluate client goal collected clarify_id
  else ret tt.

Definition all_answered (answers : list string) : bool :=
  forallb (fun a => negb (is_empty_str a)) answers.

Definition main : M unit :=
  st_title "Deep Research Clone";;
  st_write (PStr "AI-powered research assistant with web search.");;
  client <- get_openai_client;;
  topic <- get_topic;;
  if is_empty_str topic then
    st_info "Enter a research topic to begin."
  else
    questions <- main_questions client topic;;
    answers <- get_answers questions;;
    if negb (all_answered answers) then
      st_info "Please answer all clarifying questions."
    else
      r <- main_plan client topic answers;;
      let plan := fst r in
      let clarify_id := snd r in
      goal <- lift (getitem plan "goal");;
      queries <- lift (getitem plan "queries");;
      st_subheader "Research Goal";;
      st_write goal;;
      st_subheader "Initial Search Queries";;
      st_write queries;;
      main_research client goal queries clarify_id.

End Script.

(** The session after a sequence of runs, one world per run, starting from
    the empty session of a new browser tab. *)
Definition run_session (ws : list World) : State :=
  fold_left (fun s w => snd (main w s)) ws initial_state.

(** The list that [st.session_state.get('collected', [])] gives. *)
Definition session_collected (ss : SessionState) : list SearchResult :=
  match ss_collected ss with
  | Some c => c
  | None => []
  end.

Definition collected_of (s : State) : list SearchResult :=
  session_collected (session_state s).

(** No element of the list has a [query] that compares equal, by [==], to
    the [query] of a later element. *)
Definition distinct_queries (c : list SearchResult) : Prop :=
  ForallOrdPairs (fun a b => py_eq (query a) (query b) = false) c.

Fixpoint all_space (s : string) : bool :=
  match s with
  | EmptyString => true
  | String c r => isspace c && all_space r
  end.

Definition head_not_space (s : string) : Prop :=
  match s with
  | EmptyString => True
  | String c _ => isspace c = false
  end.

Definition last_not_space (s : string) : Prop :=
  forall r c, s = (r ++ String c EmptyString)%string -> isspace c = false.

(** The world [w] with the text of the widget [key] replaced. *)
Definition with_text (w : World) (key value : string) : World :=
  {| OPENAI_API_KEY := OPENAI_API_KEY w;
     ui_text := fun k => if String.eqb k key then value else ui_text w k;
     ui_button := ui_button w;
     responses_create := responses_create w;
     json_loads := json_loads w |}.

(** Appending events to the log of a state. *)
Definition logged (s : State) (evs : list Event) : State :=
  {| session_state := session_state s; clock := clock s; log := log s ++ evs |}.

(** The state after one more model call has been logged. *)
Definition called (s : State) (r : Request) : State :=
  {| session_state := session_state s; clock := S (clock s);
     log := log s ++ [EvApiCall (clock s) r] |}.

(** The state with the session store replaced. *)
Definition with_session (s : State) (ss : SessionState) : State :=
  {| session_state := ss; clock := clock s; log := log s |}.

(** The text inputs that [get_answers] renders, from index [i] on. *)
Fixpoint answer_inputs (i : nat) (questions : list string) : list Event :=
  match questions with
  | [] => []
  | question :: rest =>
      EvTextInput question (answer_key i) :: answer_inputs (S i) rest
  end.

(** What the user typed into those inputs. *)
Fixpoint typed_answers (w : World) (i n : nat) : list string :=
  match n with
  | 0 => []
  | S n' => ui_text w (answer_key i) :: typed_answers w (S i) n'
  end.

(** What the research loop logs when it searches for [searched], the first
    call being made at clock [n]. *)
Fixpoint search_events (n : nat) (searched : list pyval) : list Event :=
  match searched with
  | [] => []
  | q :: rest =>
      EvSpinner [Lit "Searching: "; FmtVal q]
      :: EvApiCall n (search_request q) :: search_events (S n) rest
  end.

(** What [main] has logged when the topic has been read with the key [k]. *)
Definition page_head (k : string) : list Event :=
  [EvTitle "Deep Research Clone";
   EvWrite (PStr "AI-powered research assistant with web search.");
   EvNewClient k;
   EvTextInput "Research topic:" "topic"].

(** What [main] shows of the plan. *)
Definition plan_shown (goal queries : pyval) : list Event :=
  [EvSubheader "Research Goal"; EvWrite goal;
   EvSubheader "Initial Search Queries"; EvWrite queries].

(** What [main] has logged when it halts for want of a key. *)
Definition halted_page : list Event :=
  [EvTitle "Deep Research Clone";
   EvWrite (PStr "AI-powered research assistant with web search.");
   EvError "OPENAI_API_KEY not set. Please set it in your environment or .env file."].

(** The run of [main] from [s] gets as far as line 161: the key is set, the
    topic and all answers are given, the plan has a goal and queries, the
    research is under way, and the loop has returned [collected], leaving
    the state [s5] in which [evaluate] is called. *)
Definition reaches_evaluation (w : World) (s : State) (client : OpenAI)
  (goal : pyval) (collected : list SearchResult) (clarify_id : string)
  (s5 : State) : Prop :=
  exists k questions s1 r s3 queries qs,
    OPENAI_API_KEY w = Some k /\ k <> EmptyString
    /\ client = {| api_key := k |}
    /\ strip (ui_text w "topic") <> EmptyString
    /\ main_questions w client (strip (ui_text w "topic")) (logged s (page_head k))
       = (Returned questions, s1)
    /\ all_answered (typed_answers w 0 (length questions)) = true
    /\ main_plan w client (strip (ui_text w "topic"))
         (typed_answers w 0 (length questions))
         (logged s1 (answer_inputs 0 questions))
       = (Returned r, s3)
    /\ getitem (fst r) "goal" = inr goal
    /\ getitem (fst r) "queries" = inr queries
    /\ clarify_id = snd r
    /\ ui_button w "run_research"
       || match ss_research_started (session_state s3) with
          | Some b => b
          | None => false
          end = true
    /\ py_iter
         match collected_of s3 with
         | [] => queries
         | _ :: _ => match ss_queries (session_state s3) with
                     | Some q => q
                     | None => queries
                     end
         end = inr qs
    /\ research_loop w client
         match collected_of s3 with
         | [] => queries
         | _ :: _ => match ss_queries (session_state s3) with
                     | Some q => q
                     | None => queries
                     end
         end qs (collected_of s3)
         (with_session
            (logged s3 (plan_shown goal queries
                        ++ [EvButton "Run Research" "run_research"]))
            (set_research_started true (session_state s3)))
       = (Returned collected, s5).

(** ** Specifications of computations *)

Definition hoare {A : Type} (P : State -> Prop) (m : M A)
  (Q : Outcome A -> State -> Prop) : Prop :=
  forall s, P s -> Q (fst (m s)) (snd (m s)).

(** A postcondition that asks [P] after a normal return, [E e] after the
    exception [e] and [H] after [st.stop()]. *)
Definition outcome_post (P : State -> Prop) (E : exn -> State -> Prop)
  (H : State -> Prop) {A : Type} (o : Outcome A) (s : State) : Prop :=
  match o with
  | Returned _ => P s
  | Raised e => E e s
  | Stopped => H s
  end.

Definition spec (P : State -> Prop) (E : exn -> State -> Prop)
  (H : State -> Prop) {A : Type} (m : M A) : Prop :=
  hoare P m (outcome_post P E H).

(** Two session stores that agree on every key but 'queries'. *)
Definition same_but_queries (a b : SessionState) : Prop :=
  ss_clarify a = ss_clarify b
  /\ ss_last_topic a = ss_last_topic b
  /\ ss_goal_plan a = ss_goal_plan b
  /\ ss_clarify_id a = ss_clarify_id b
  /\ ss_last_answers a = ss_last_answers b
  /\ ss_research_started a = ss_research_started b
  /\ ss_collected a = ss_collected b.

Definition distinct_session (ss : SessionState) : Prop :=
  distinct_queries (session_collected ss).

(** The requests whose answer the script hands to [json.loads]. *)
Definition parses_json (r : Request) : Prop :=
  (exists topic answers clarify_id, r = plan_request topic answers clarify_id)
  \/ (exists collected clarify_id, r = more_request collected clarify_id).

(** The call of [r] at clock [n] is answered with a text that is not JSON. *)
Definition malformed (w : World) (n : nat) (r : Request) : Prop :=
  parses_json r
  /\ exists resp t,
       responses_create w n r = Some resp
       /\ output_text resp 0 = inr t
       /\ json_loads w t = None.

Definition quiet (w : World) (e : Event) : Prop :=
  match e with
  | EvApiCall n r => ~ malformed w n r
  | _ => True
  end.

(** Since the log was [base], no call was answered with malformed JSON. *)
Definition clean (w : World) (base : list Event) (s : State) : Prop :=
  exists evs, log s = base ++ evs /\ Forall (quiet w) evs.

(** Since the log was [base], the last thing logged is the only call that
    was answered with malformed JSON. *)
Definition bad_end (w : World) (base : list Event) (s : State) : Prop :=
  exists evs n r,
    log s = base ++ evs ++ [EvApiCall n r]
    /\ Forall (quiet w) evs /\ malformed w n r.

Definition json_exn (w : World) (base : list Event) (e : exn) (s : State) : Prop :=
  clean w base s \/ (e = JSONDecodeError /\ bad_end w base s).

Definition json_spec (w : World) (base : list Event) {A : Type} (m : M A) : Prop :=
  spec (clean w base) (json_exn w base) (clean w base) m.

(** [Q] holds of the session store. *)
Definition on_session (Q : SessionState -> Prop) (s : State) : Prop :=
  Q (session_state s).

(** The computation keeps [Q] true of the session store, however it ends. *)
Definition keeps (Q : SessionState -> Prop) {A : Type} (m : M A) : Prop :=
  spec (on_session Q) (fun _ => on_session Q) (on_session Q) m.

(** ** Example worlds and responses *)

Definition message (i t : string) : Response :=
  {| id := i;
     output := [{| item_id := "msg_1";
                   content := Has [{| text := Some t |}] |}] |}.

Definition search_response (t : string) : Response :=
  {| id := "resp_search";
     output := [{| item_id := "ws_1"; content := Absent |};
                {| item_id := "msg_2";
                   content := Has [{| text := Some t |}] |}] |}.

Definition sample_plan : pyval :=
  PDict [("goal", PStr "compare heat pumps");
         ("queries", PList [PStr "heat pump cost"; PStr "heat pump noise";
                            PStr "heat pump cost"])].

(** A service that asks two questions, plans, finds something for every
    search and is satisfied at once. *)
Definition sample_world : World :=
  {| OPENAI_API_KEY := Some "sk-test";
     ui_text := fun k => if String.eqb k "topic" then "  heat pumps " else "home";
     ui_button := fun _ => true;
     responses_create := fun n r =>
       match tools r with
       | Some _ => Some (search_response "found")
       | None =>
           match n with
           | 0 => Some (message "resp_0" ("1. Why?" ++ nl ++ "2. Where?"))
           | 1 => Some (message "resp_1" "PLAN")
           | _ => Some (message "resp_n" "Yes.")
           end
       end;
     json_loads := fun t =>
       if String.eqb t "PLAN" then Some sample_plan else None |}.

Definition sample_client : OpenAI := {| api_key := "sk-test" |}.

Definition sample_queries : list pyval :=
  [PStr "heat pump cost"; PStr "heat pump noise"; PStr "heat pump cost"].

(** A fresh session in which [n] model calls have been made. *)
Definition state_at (n : nat) : State :=
  {| session_state := empty_session; clock := n; log := [] |}.

(** As [sample_world], but the review says no and the follow-up answer
    parses to one more query. *)
Definition unsatisfied_world : World :=
  {| OPENAI_API_KEY := Some "sk-test";
     ui_text := fun k => if String.eqb k "topic" then "  heat pumps " else "home";
     ui_button := fun _ => true;
     responses_create := fun n r =>
       match tools r, instructions r with
       | Some _, _ => Some (search_response "found")
       | None, None => Some (message "resp_more" "MORE")
       | None, Some _ =>
           match n with
           | 0 => Some (message "resp_0" ("1. Why?" ++ nl ++ "2. Where?"))
           | 1 => Some (message "resp_1" "PLAN")
           | _ => Some (message "resp_n" "No.")
           end
       end;
     json_loads := fun t =>
       if String.eqb t "PLAN" then Some sample_plan
       else if String.eqb t "MORE" then Some (PList [PStr "heat pump grants"])
       else None |}.

(** As [sample_world], but no text parses as JSON. *)
Definition garbled_world : World :=
  {| OPENAI_API_KEY := OPENAI_API_KEY sample_world;
     ui_text := ui_text sample_world;
     ui_button := ui_button sample_world;
     responses_create := responses_create sample_world;
     json_loads := fun _ => None |}.

(** As [unsatisfied_world], but the follow-up answer does not parse. *)
Definition garbled_more_world : World :=
  {| OPENAI_API_KEY := OPENAI_API_KEY unsatisfied_world;
     ui_text := ui_text unsatisfied_world;
     ui_button := ui_button unsatisfied_world;
     responses_create := responses_create unsatisfied_world;
     json_loads := json_loads sample_world |}.

Definition sample_results : list SearchResult :=
  [{| query := PStr "heat pump cost"; resp_id := "ws_1";
      research_output := "found" |};
   {| query := PStr "heat pump noise"; resp_id := "ws_1";
      research_output := "found" |}].

(** The key is set to the empty string; nothing is typed or clicked. *)
Definition empty_key_world : World :=
  {| OPENAI_API_KEY := Some EmptyString;
     ui_text := fun _ => EmptyString;
     ui_button := fun _ => false;
     responses_create := fun _ _ => None;
     json_loads := fun _ => None |}.

(** The world [w] with the state of every button replaced. *)
Definition with_button (w : World) (pressed : bool) : World :=
  {| OPENAI_API_KEY := OPENAI_API_KEY w;
     ui_text := ui_text w;
     ui_button := fun _ => pressed;
     responses_create := responses_create w;
     json_loads := json_loads w |}.

(** The computation never ends in [st.stop()]. *)
Definition never_stops {A : Type} (m : M A) : Prop :=
  spec (fun _ => True) (fun _ _ => True) (fun _ => False) m.

(** A session that holds a plan also holds the id of its response. *)
Definition plan_has_id (ss : SessionState) : Prop :=
  ss_goal_plan ss = None \/ ss_clarify_id ss <> None.

(** The computation keeps [plan_has_id] and does not raise the KeyError of
    the lookup of 'clarify_id' in the session. *)
Definition id_spec {A : Type} (m : M A) : Prop :=
  spec (on_session plan_has_id)
       (fun e s => on_session plan_has_id s /\ e <> KeyError "clarify_id")
       (on_session plan_has_id) m.

(** A session in which the research is under way, something is collected
    and the follow-up queries are a number. *)
Definition stuck_state : State :=
  {| session_state :=
       {| ss_clarify := Some ["1. Why?"; "2. Where?"];
          ss_last_topic := Some "heat pumps";
          ss_goal_plan := Some sample_plan;
          ss_clarify_id := Some "resp_1";
          ss_last_answers := Some ["home"; "home"];
          ss_research_started := Some true;
          ss_collected := Some sample_results;
          ss_queries := Some (PInt 5) |};
     clock := 6;
     log := [] |}.

(** As [sample_world], but the plan parses to an empty list. *)
Definition shapeless_world : World :=
  {| OPENAI_API_KEY := OPENAI_API_KEY sample_world;
     ui_text := ui_text sample_world;
     ui_button := ui_button sample_world;
     responses_create := responses_create sample_world;
     json_loads := fun t => if String.eqb t "PLAN" then Some (PList []) else None |}.

(** The value that line 152 binds to [queries_to_run]. *)
Definition queries_to_run_of (s : State) (queries : pyval) : pyval :=
  match collected_of s with
  | [] => queries
  | _ :: _ => match ss_queries (session_state s) with
              | Some qs => qs
              | None => queries
              end
  end.

(** Two session stores that agree on every key but 'clarify' and
    'last_topic'. *)
Definition same_but_questions (a b : SessionState) : Prop :=
  ss_goal_plan a = ss_goal_plan b
  /\ ss_clarify_id a = ss_clarify_id b
  /\ ss_last_answers a = ss_last_answers b
  /\ ss_research_started a = ss_research_started b
  /\ ss_collected a = ss_collected b
  /\ ss_queries a = ss_queries b.

Definition not_text_input (e : Event) : Prop :=
  match e with
  | EvTextInput _ _ => False
  | _ => True
  end.

(** Since the log was [base], no text input was rendered. *)
Definition inputless (base : list Event) (s : State) : Prop :=
  exists evs, log s = base ++ evs /\ Forall not_text_input evs.

Definition inputless_spec (base : list Event) {A : Type} (m : M A) : Prop :=
  spec (inputless base) (fun _ => inputless base) (inputless base) m.

(** * Facts about the string operations *)

Section StringFacts.

Lemma append_empty_r (s : string) : (s ++ EmptyString)%string = s.
Proof. induction s as [|c s IH]; simpl; [reflexivity | now rewrite IH]. Qed.

Lemma append_assoc (a b c : string) :
  ((a ++ b) ++ c)%string = (a ++ (b ++ c))%string.
Proof. induction a as [|x a IH]; simpl; [reflexivity | now rewrite IH]. Qed.

Lemma prefix_app (p s : string) :
  String.prefix p s = true <-> exists r, s = (p ++ r)%string.
Proof.
  revert s; induction p as [|c p IH]; intros s; simpl.
  - split; [intros _; now exists s | intros _; destruct s; reflexivity].
  - destruct s as [|d s]; simpl.
    + split; [discriminate | intros [r Hr]; discriminate].
    + destruct (ascii_dec c d) as [->|Hne].
      * rewrite IH. split; intros [r Hr]; exists r; congruence.
      * split; [discriminate | intros [r Hr]; congruence].
Qed.

Lemma str_in_spec (needle hay : string) :
  str_in needle hay = true
  <-> exists pre post, hay = (pre ++ needle ++ post)%string.
Proof.
  induction hay as [|c hay IH].
  - change (str_in needle EmptyString)
      with (String.prefix needle EmptyString || false).
    rewrite orb_false_r, prefix_app. split.
    + intros [r Hr]. now exists EmptyString, r.
    + intros [[|x pre] [post H]]; simpl in H; [now exists post | discriminate].
  - change (str_in needle (String c hay))
      with (String.prefix needle (String c hay) || str_in needle hay).
    rewrite orb_true_iff, prefix_app, IH. split.
    + intros [[r Hr] | [pre [post H]]].
      * now exists EmptyString, r.
      * exists (String c pre), post. simpl. now rewrite H.
    + intros [[|x pre] [post H]]; simpl in H.
      * left. now exists post.
      * right. exists pre, post. congruence.
Qed.

Lemma split_not_nil (sep : ascii) (s : string) : split sep s <> [].
Proof.
  destruct s as [|c s]; simpl; [discriminate|].
  destruct (Ascii.eqb c sep); [discriminate|].
  destruct (split sep s); discriminate.
Qed.

Lemma join_cons_char (sep c : ascii) (h : string) (t : list string) :
  join sep (String c h :: t) = String c (join sep (h :: t)).
Proof. destruct t; reflexivity. Qed.

Lemma join_split (sep : ascii) (s : string) : join sep (split sep s) = s.
Proof.
  induction s as [|c s IH]; [reflexivity|]. simpl.
  destruct (Ascii.eqb c sep) eqn:E.
  - apply Ascii.eqb_eq in E. subst c.
    pose proof (split_not_nil sep s) as Hn.
    destruct (split sep s) as [|h t]; [contradiction|].
    change (join sep (EmptyString :: h :: t))
      with (String sep (join sep (h :: t))).
    now rewrite IH.
  - pose proof (split_not_nil sep s) as Hn.
    destruct (split sep s) as [|h t]; [contradiction|].
    rewrite join_cons_char. now rewrite IH.
Qed.

Lemma length_split (sep : ascii) (s : string) :
  length (split sep s) = S (count_char sep s).
Proof.
  induction s as [|c s IH]; [reflexivity|]. simpl.
  pose proof (split_not_nil sep s) as Hn.
  destruct (Ascii.eqb c sep); simpl.
  - now rewrite IH.
  - destruct (split sep s) as [|h t]; [contradiction|]. simpl in *. lia.
Qed.

Lemma split_pieces (sep : ascii) (s : string) :
  Forall (fun q => count_char sep q = 0) (split sep s).
Proof.
  induction s as [|c s IH]; simpl.
  - now constructor.
  - destruct (Ascii.eqb c sep) eqn:E.
    + constructor; [reflexivity | exact IH].
    + destruct (split sep s) as [|h t].
      * constructor; [simpl; now rewrite E | constructor].
      * inversion IH; subst. constructor; [simpl; rewrite E; assumption | assumption].
Qed.

Lemma lstrip_spec (s : string) :
  exists a, s = (a ++ lstrip s)%string /\ all_space a = true
            /\ head_not_space (lstrip s).
Proof.
  induction s as [|c s (a & Ha & Hs & Hh)]; simpl.
  - now exists EmptyString.
  - destruct (isspace c) eqn:E.
    + exists (String c a). simpl. rewrite E, Hs. repeat split; [congruence | assumption].
    + exists EmptyString. simpl. repeat split. assumption.
Qed.

Lemma rstrip_spec (s : string) :
  exists b, s = (rstrip s ++ b)%string /\ all_space b = true
            /\ last_not_space (rstrip s).
Proof.
  induction s as [|c s (b & Hb & Hs & Hl)]; simpl.
  - exists EmptyString. repeat split. intros [|x r] c H; discriminate.
  - destruct (isspace c) eqn:E; simpl.
    + destruct (rstrip s) as [|d r'] eqn:R; simpl.
      * exists (String c b). simpl in Hb. simpl. rewrite E, Hs.
        repeat split; [congruence|]. intros [|x r] y H; discriminate.
      * exists b. repeat split; [simpl in *; congruence | assumption |].
        intros [|x r] y H; simpl in H; [discriminate|].
        injection H as _ H. exact (Hl r y H).
    + exists b. repeat split; [congruence | assumption |].
      intros [|x r] y H; simpl in H.
      * injection H as -> _. exact E.
      * injection H as _ H. exact (Hl r y H).
Qed.

Lemma rstrip_head (s : string) : head_not_space s -> head_not_space (rstrip s).
Proof.
  destruct s as [|c s]; simpl; [trivial|]. intros E. now rewrite E.
Qed.

Lemma strip_spec (s : string) :
  exists a b, s = (a ++ strip s ++ b)%string
              /\ all_space a = true /\ all_space b = true
              /\ head_not_space (strip s) /\ last_not_space (strip s).
Proof.
  destruct (lstrip_spec s) as (a & Ha & Hsa & Hh).
  destruct (rstrip_spec (lstrip s)) as (b & Hb & Hsb & Hl).
  exists a, b. unfold strip. repeat split; try assumption.
  - now rewrite <- Hb.
  - now apply rstrip_head.
Qed.

Lemma lstrip_all_space (s : string) : all_space s = true -> lstrip s = EmptyString.
Proof.
  induction s as [|c s IH]; simpl; [reflexivity|].
  intros H. apply andb_true_iff in H as [Hc Hs]. rewrite Hc. auto.
Qed.

Lemma all_space_app (a b : string) :
  all_space (a ++ b) = all_space a && all_space b.
Proof.
  induction a as [|c a IH]; simpl; [reflexivity|].
  now rewrite IH, andb_assoc.
Qed.

(** A text is stripped to nothing exactly when all of it is whitespace. *)
Lemma strip_empty_iff (s : string) :
  strip s = EmptyString <-> all_space s = true.
Proof.
  split.
  - intros H. destruct (strip_spec s) as (a & b & Hs & Ha & Hb & _).
    rewrite H in Hs. rewrite Hs. simpl. now rewrite all_space_app, Ha, Hb.
  - intros H. unfold strip. now rewrite (lstrip_all_space s H).
Qed.

Lemma str_of_nat_inj (i j : nat) : str_of_nat i = str_of_nat j -> i = j.
Proof.
  unfold str_of_nat. intros H.
  assert (E : Some (Nat.to_uint i) = Some (Nat.to_uint j)).
  { rewrite <- (NilEmpty.usu (Nat.to_uint i)), <- (NilEmpty.usu (Nat.to_uint j)).
    now rewrite H. }
  injection E as E.
  rewrite <- (DecimalNat.Unsigned.of_to i), <- (DecimalNat.Unsigned.of_to j).
  now rewrite E.
Qed.

End StringFacts.

(** * Facts about the monad *)

Section MonadFacts.

Context {A B : Type}.

Lemma bind_returned (m : M A) (k : A -> M B) (s s1 : State) (a : A) :
  m s = (Returned a, s1) -> bind m k s = k a s1.
Proof. intros H. unfold bind. now rewrite H. Qed.

Lemma bind_raised (m : M A) (k : A -> M B) (s s1 : State) (e : exn) :
  m s = (Raised e, s1) -> bind m k s = (Raised e, s1).
Proof. intros H. unfold bind. now rewrite H. Qed.

Lemma bind_stopped (m : M A) (k : A -> M B) (s s1 : State) :
  m s = (Stopped, s1) -> bind m k s = (Stopped, s1).
Proof. intros H. unfold bind. now rewrite H. Qed.

Lemma hoare_bind (P : State -> Prop) (m : M A) (k : A -> M B)
  (Q1 : Outcome A -> State -> Prop) (Q2 : Outcome B -> State -> Prop) :
  hoare P m Q1 ->
  (forall a, hoare (Q1 (Returned a)) (k a) Q2) ->
  (forall e s, Q1 (Raised e) s -> Q2 (Raised e) s) ->
  (forall s, Q1 Stopped s -> Q2 Stopped s) ->
  hoare P (bind m k) Q2.
Proof.
  intros Hm Hk He Hs s HP. specialize (Hm s HP). unfold bind.
  destruct (m s) as [[a|e|] s1]; simpl in Hm.
  - exact (Hk a s1 Hm).
  - exact (He e s1 Hm).
  - exact (Hs s1 Hm).
Qed.

Lemma spec_bind (P : State -> Prop) (E : exn -> State -> Prop)
  (H : State -> Prop) (m : M A) (k : A -> M B) :
  spec P E H m -> (forall a, spec P E H (k a)) -> spec P E H (bind m k).
Proof.
  intros Hm Hk. unfold spec.
  apply hoare_bind with (Q1 := outcome_post P E H); auto.
Qed.

Lemma spec_ret (P : State -> Prop) (E : exn -> State -> Prop)
  (H : State -> Prop) (a : A) : spec P E H (ret a).
Proof. intros s HP. exact HP. Qed.

Lemma spec_raise (P : State -> Prop) (E : exn -> State -> Prop)
  (H : State -> Prop) (e : exn) :
  (forall s, P s -> E e s) -> spec P E H (@raise A e).
Proof. intros HE s HP. exact (HE s HP). Qed.

Lemma spec_stop (P : State -> Prop) (E : exn -> State -> Prop)
  (H : State -> Prop) :
  (forall s, P s -> H s) -> spec P E H (@st_stop A).
Proof. intros HH s HP. exact (HH s HP). Qed.

Lemma spec_lift (P : State -> Prop) (E : exn -> State -> Prop)
  (H : State -> Prop) (r : exn + A) :
  (forall e, r = inl e -> forall s, P s -> E e s) -> spec P E H (lift r).
Proof.
  intros HE. destruct r as [e|a]; simpl.
  - apply spec_raise. now apply HE.
  - apply spec_ret.
Qed.

Lemma spec_run (P : State -> Prop) (E : exn -> State -> Prop)
  (H : State -> Prop) (m : M A) :
  (forall s o s', P s -> m s = (o, s') -> outcome_post P E H o s') ->
  spec P E H m.
Proof.
  intros Hm s HP. apply (Hm s); [exact HP|]. now destruct (m s).
Qed.

End MonadFacts.

Lemma logged_logged (s : State) (a b : list Event) :
  logged (logged s a) b = logged s (a ++ b).
Proof. unfold logged. simpl. now rewrite app_assoc. Qed.

Lemma logged_nil (s : State) : logged s [] = s.
Proof. destruct s. unfold logged. simpl. now rewrite app_nil_r. Qed.

Lemma emit_logged (e : Event) (s : State) : emit e s = (Returned tt, logged s [e]).
Proof. reflexivity. Qed.

(** * The functions of the script *)

Section Functions.

Variable w : World.

Lemma output_text_0 (i t : string) : output_text (message i t) 0 = inr t.
Proof. reflexivity. Qed.

Lemma get_answers_from_spec (questions : list string) :
  forall i answers s,
    get_answers_from w i questions answers s
    = (Returned (answers ++ typed_answers w i (length questions)),
       logged s (answer_inputs i questions)).
Proof.
  induction questions as [|q rest IH]; intros i answers s; simpl.
  - unfold ret. now rewrite app_nil_r, logged_nil.
  - unfold st_text_input at 1. unfold bind at 1. unfold bind at 1.
    rewrite emit_logged. unfold ret at 1. rewrite IH.
    rewrite logged_logged, <- app_assoc. reflexivity.
Qed.

Lemma length_typed_answers (i n : nat) : length (typed_answers w i n) = n.
Proof. revert i; induction n as [|n IH]; intros i; simpl; [reflexivity | now rewrite IH]. Qed.

Lemma nth_typed_answers (n : nat) :
  forall i j, j < n ->
    nth_error (typed_answers w i n) j = Some (ui_text w (answer_key (i + j))).
Proof.
  induction n as [|n IH]; intros i j Hj; [lia|].
  destruct j as [|j]; simpl.
  - now rewrite Nat.add_0_r.
  - rewrite IH by lia. now rewrite Nat.add_succ_r.
Qed.

Lemma nth_answer_inputs (questions : list string) :
  forall i j q, nth_error questions j = Some q ->
    nth_error (answer_inputs i questions) j
    = Some (EvTextInput q (answer_key (i + j))).
Proof.
  induction questions as [|x rest IH]; intros i j q Hq.
  - destruct j; discriminate.
  - destruct j as [|j]; simpl in *.
    + injection Hq as ->. now rewrite Nat.add_0_r.
    + rewrite (IH (S i) j q Hq). now rewrite Nat.add_succ_r.
Qed.

Lemma answer_key_inj (i j : nat) : answer_key i = answer_key j -> i = j.
Proof.
  unfold answer_key. intros H. apply str_of_nat_inj.
  simpl in H. now repeat injection H as H.
Qed.

Lemma get_openai_client_halts (s : State) :
  OPENAI_API_KEY w = None \/ OPENAI_API_KEY w = Some EmptyString ->
  get_openai_client w s
  = (Stopped,
     logged s [EvError "OPENAI_API_KEY not set. Please set it in your environment or .env file."]).
Proof.
  intros H. unfold get_openai_client. destruct H as [-> | ->]; reflexivity.
Qed.

Lemma main_halts (s : State) :
  OPENAI_API_KEY w = None \/ OPENAI_API_KEY w = Some EmptyString ->
  main w s = (Stopped, logged s halted_page).
Proof.
  intros H. unfold main, st_title, st_write.
  unfold bind at 1. rewrite emit_logged.
  unfold bind at 1. rewrite emit_logged.
  rewrite (bind_stopped _ _ _ _ (get_openai_client_halts _ H)).
  now rewrite !logged_logged.
Qed.

(** C4. When OPENAI_API_KEY is unset or empty, [get_openai_client] shows the
    error message and halts: the log gains only that message, so no client
    is constructed and no model call is made; [main] halts with it, having
    shown only the title, the subtitle and the error. *)
Theorem missing_key_halts (s : State) :
  OPENAI_API_KEY w = None \/ OPENAI_API_KEY w = Some EmptyString ->
  get_openai_client w s
  = (Stopped,
     logged s [EvError "OPENAI_API_KEY not set. Please set it in your environment or .env file."])
  /\ main w s
     = (Stopped,
        logged s [EvTitle "Deep Research Clone";
                  EvWrite (PStr "AI-powered research assistant with web search.");
                  EvError "OPENAI_API_KEY not set. Please set it in your environment or .env file."])
  /\ clock (snd (main w s)) = clock s
  /\ session_state (snd (main w s)) = session_state s.
Proof.
  intros H. rewrite (main_halts s H).
  split; [now apply get_openai_client_halts|]. repeat split.
Qed.

(** C2. Whenever [evaluate] returns, the service answered the review request
    with a text, and the value returned is true exactly when the lowercased
    text has "yes" as a substring; in particular it is true only then. *)
Theorem evaluate_true_only_if_yes (client : OpenAI) (goal : pyval)
  (collected : list SearchResult) (s s' : State) (b : bool) :
  evaluate w client goal collected s = (Returned b, s') ->
  exists review t,
    responses_create w (clock s) (review_request goal collected) = Some review
    /\ output_text review 0 = inr t
    /\ (b = true <-> exists pre post, lower t = (pre ++ "yes" ++ post)%string).
Proof.
  unfold evaluate, bind, responses_create_on.
  destruct (responses_create w (clock s) (review_request goal collected))
    as [review|]; [|discriminate].
  destruct (output_text review 0) as [e|t] eqn:Ht; simpl; [discriminate|].
  unfold ret. intros H. injection H as <- _.
  exists review, t. split; [reflexivity|]. split; [exact Ht|].
  apply str_in_spec.
Qed.

(** C6. When the service answers the clarifying request with the text [t],
    [get_clarifying_questions] returns [t] split on the newline character:
    joining the returned list with newlines gives [t] back (nothing is
    dropped, reordered or rewritten), no piece holds a newline, and the
    number of pieces is one more than the number of newlines in [t], so it
    is 5 only for a text with exactly 4 newlines. *)
Theorem clarifying_questions_are_the_split_text (client : OpenAI)
  (topic : string) (s : State) (clarify : Response) (t : string) :
  responses_create w (clock s) (clarify_request topic) = Some clarify ->
  output_text clarify 0 = inr t ->
  get_clarifying_questions w client topic s
  = (Returned (split newline t), called s (clarify_request topic))
  /\ join newline (split newline t) = t
  /\ Forall (fun q => count_char newline q = 0) (split newline t)
  /\ length (split newline t) = S (count_char newline t)
  /\ (length (split newline t) = 5 <-> count_char newline t = 4).
Proof.
  intros Hr Ht. repeat split.
  - unfold get_clarifying_questions, bind, responses_create_on.
    rewrite Hr, Ht. reflexivity.
  - apply join_split.
  - apply split_pieces.
  - apply length_split.
  - rewrite length_split. lia.
  - rewrite length_split. lia.
Qed.

(** C7. [get_answers] always returns, with one answer per question: the
    i-th answer is what the user typed into the i-th text input, the one
    rendered with the i-th question as its label and the key answer_i; the
    keys of different positions differ, and the session is left alone. *)
Theorem answers_align_with_questions (questions : list string) (s : State) :
  exists answers,
    get_answers w questions s
    = (Returned answers, logged s (answer_inputs 0 questions))
    /\ length answers = length questions
    /\ (forall i q, nth_error questions i = Some q ->
          nth_error answers i = Some (ui_text w (answer_key i))
          /\ nth_error (answer_inputs 0 questions) i
             = Some (EvTextInput q (answer_key i)))
    /\ (forall i j, answer_key i = answer_key j -> i = j).
Proof.
  exists (typed_answers w 0 (length questions)). repeat split.
  - unfold get_answers. now rewrite get_answers_from_spec.
  - apply length_typed_answers.
  - apply (nth_typed_answers (length questions) 0 i).
    apply nth_error_Some. congruence.
  - now apply (nth_answer_inputs questions 0 i q).
  - apply answer_key_inj.
Qed.

End Functions.

(** * The research loop *)

Section ResearchLoop.

Variable w : World.
Variable client : OpenAI.
Variable queries_to_run : pyval.

Lemma already_collected_app (q : pyval) (c d : list SearchResult) :
  already_collected q (c ++ d) = already_collected q c || already_collected q d.
Proof. apply existsb_app. Qed.

Lemma run_search_cases (q : pyval) (s : State) :
  (exists e, run_search w client q s = (Raised e, called s (search_request q)))
  \/ (exists r, query r = q
        /\ run_search w client q s = (Returned r, called s (search_request q))).
Proof.
  unfold run_search, bind, responses_create_on. fold (called s (search_request q)).
  destruct (responses_create w (clock s) (search_request q)) as [resp|].
  - destruct (output_at resp 0) as [e|out0]; simpl.
    + left. now exists e.
    + destruct (output_text resp 1) as [e|t]; simpl.
      * left. now exists e.
      * right. eexists. split; [|reflexivity]. reflexivity.
  - left. now exists APIError.
Qed.

(** A turn either skips a query that is collected, or searches for it. *)
Lemma research_turn_cases (collected : list SearchResult) (q : pyval) (s : State) :
  (already_collected q collected = true
   /\ research_turn w client queries_to_run collected q s = (Returned collected, s))
  \/ (already_collected q collected = false
      /\ let s1 := called (logged s [EvSpinner [Lit "Searching: "; FmtVal q]])
                          (search_request q) in
         ((exists e, research_turn w client queries_to_run collected q s
                     = (Raised e, s1))
          \/ (exists r, query r = q
                /\ research_turn w client queries_to_run collected q s
                   = (Returned (collected ++ [r]),
                      with_session s1
                        (set_queries queries_to_run
                           (set_collected (collected ++ [r]) (session_state s))))))).
Proof.
  destruct (already_collected q collected) eqn:E.
  - left. split; [reflexivity|]. unfold research_turn. now rewrite E.
  - right. split; [reflexivity|]. cbv zeta.
    assert (U : research_turn w client queries_to_run collected q s
                = bind (run_search w client q)
                    (fun result =>
                       modify_session (set_collected (collected ++ [result]));;
                       modify_session (set_queries queries_to_run);;
                       ret (collected ++ [result]))
                    (logged s [EvSpinner [Lit "Searching: "; FmtVal q]])).
    { unfold research_turn. rewrite E. reflexivity. }
    rewrite U.
    destruct (run_search_cases q (logged s [EvSpinner [Lit "Searching: "; FmtVal q]]))
      as [[e He] | [r [Hq Hr]]].
    + left. exists e. now rewrite (bind_raised _ _ _ _ _ He).
    + right. exists r. split; [exact Hq|].
      now rewrite (bind_returned _ _ _ _ _ Hr).
Qed.

Lemma research_loop_app (qs1 qs2 : list pyval) :
  forall collected s,
    research_loop w client queries_to_run (qs1 ++ qs2) collected s
    = bind (research_loop w client queries_to_run qs1 collected)
           (research_loop w client queries_to_run qs2) s.
Proof.
  induction qs1 as [|q qs1 IH]; intros collected s; simpl.
  - reflexivity.
  - unfold bind.
    destruct (research_turn w client queries_to_run collected q s) as [[c|e|] s1];
      [|reflexivity|reflexivity].
    rewrite IH. reflexivity.
Qed.

(** C1. Whatever list the loop runs over, its model calls are searches, one
    per query of some list [searched]: each searched query is drawn from the
    queries to run and, when its turn came, compared equal to the [query]
    of no element of [collected] (neither of the list the loop started with
    nor of the results added before it); the list returned is the starting
    list followed by one result per search, in order; so a query that
    already occurs in [collected] is not searched again, and a run over
    queries that all occur there changes nothing at all. *)
Theorem research_loop_searches_only_new_queries (qs : list pyval)
  (collected : list SearchResult) (s s' : State) (o : Outcome (list SearchResult)) :
  research_loop w client queries_to_run qs collected s = (o, s') ->
  exists searched,
    log s' = log s ++ search_events (clock s) searched
    /\ clock s' = clock s + length searched
    /\ (forall pre q post, searched = pre ++ q :: post ->
          In q qs /\ already_collected q collected = false
          /\ Forall (fun p => py_eq p q = false) pre)
    /\ (forall c', o = Returned c' ->
          exists added, c' = collected ++ added /\ map query added = searched)
    /\ (Forall (fun q => already_collected q collected = true) qs ->
          o = Returned collected /\ s' = s).
Proof.
  revert collected s. induction qs as [|q rest IH]; intros collected s; simpl.
  - unfold ret. intros H. injection H as <- <-. exists [].
    simpl. rewrite app_nil_r, Nat.add_0_r. repeat split; auto.
    + destruct pre; discriminate.
    + destruct pre; discriminate.
    + destruct pre; discriminate.
    + intros c' H. injection H as <-. exists []. now rewrite app_nil_r.
  - destruct (research_turn_cases collected q s)
      as [[Ha Ht] | [Ha [[e Ht] | [r [Hq Ht]]]]].
    + rewrite (bind_returned _ _ _ _ _ Ht). intros H.
      destruct (IH _ _ H) as (searched & Hlog & Hclock & Hnew & Hret & Hskip).
      exists searched. repeat split; auto.
      * right. now apply (Hnew pre q0 post).
      * now apply (Hnew pre q0 post).
      * now apply (Hnew pre q0 post).
      * apply Hskip. now inversion H0.
      * apply Hskip. now inversion H0.
    + rewrite (bind_raised _ _ _ _ _ Ht). intros H. injection H as <- <-.
      exists [q]. simpl. rewrite <- app_assoc. repeat split; auto.
      * lia.
      * destruct pre as [|x [|y pre]]; try discriminate.
        injection H as ->. now left.
      * destruct pre as [|x [|y pre]]; try discriminate.
        injection H as ->. exact Ha.
      * destruct pre as [|x [|y pre]]; try discriminate. constructor.
      * discriminate.
      * inversion H; congruence.
      * inversion H; congruence.
    + rewrite (bind_returned _ _ _ _ _ Ht). intros H.
      destruct (IH _ _ H) as (searched & Hlog & Hclock & Hnew & Hret & Hskip).
      exists (q :: searched). simpl in *. rewrite Hlog, Hclock.
      rewrite <- !app_assoc. simpl.
      assert (Hsplit : forall pre x post, q :: searched = pre ++ x :: post ->
                In x (q :: rest) /\ already_collected x collected = false
                /\ Forall (fun p => py_eq p x = false) pre).
      { intros [|y pre] x post E; simpl in E; injection E as E1 E2; subst.
        - repeat split; [now left | exact Ha | constructor].
        - destruct (Hnew pre x post eq_refl) as (Hin & Hnot & Hpre).
          rewrite already_collected_app in Hnot.
          apply orb_false_iff in Hnot as [Hnot Hr].
          repeat split; [now right | exact Hnot |].
          constructor; [|exact Hpre].
          simpl in Hr. now rewrite orb_false_r in Hr. }
      repeat split.
      * lia.
      * now apply (Hsplit pre q0 post).
      * now apply (Hsplit pre q0 post).
      * now apply (Hsplit pre q0 post).
      * intros c' Hc. destruct (Hret c' Hc) as (added & -> & Hmap).
        exists (r :: added). rewrite <- app_assoc. simpl. now rewrite Hq, Hmap.
      * inversion H0; congruence.
      * inversion H0; congruence.
Qed.

(** [main_research] run on a state, step by step. *)
Lemma main_research_unfold (goal queries : pyval) (clarify_id : string) (s : State) :
  main_research w client goal queries clarify_id s
  = let s1 := logged s [EvButton "Run Research" "run_research"] in
    if ui_button w "run_research"
       || match ss_research_started (session_state s) with
          | Some b => b
          | None => false
          end
    then
      let s2 := with_session s1 (set_research_started true (session_state s)) in
      let to_run :=
        match collected_of s with
        | [] => queries
        | _ :: _ => match ss_queries (session_state s) with
                    | Some qs => qs
                    | None => queries
                    end
        end in
      match py_iter to_run with
      | inl e => (Raised e, s2)
      | inr qs =>
          bind (research_loop w client to_run qs (collected_of s))
               (fun c => main_evaluate w client goal c clarify_id) s2
      end
    else (Returned tt, s1).
Proof.
  unfold main_research, st_button, bind at 1 2 3, get_session.
  rewrite emit_logged. unfold ret at 1. cbv zeta.
  change (session_state (logged s [EvButton "Run Research" "run_research"]))
    with (session_state s).
  destruct (_ || _); [|reflexivity].
  unfold bind at 1, modify_session at 1.
  fold (with_session (logged s [EvButton "Run Research" "run_research"])
          (set_research_started true (session_state s))).
  fold (session_collected (session_state s)). fold (collected_of s).
  unfold bind at 1.
  destruct (py_iter _); reflexivity.
Qed.

End ResearchLoop.

(** * What the session store keeps *)

Section Keeps.

Variable w : World.
Variable Q : SessionState -> Prop.

Lemma keeps_bind {A B : Type} (m : M A) (k : A -> M B) :
  keeps Q m -> (forall a, keeps Q (k a)) -> keeps Q (bind m k).
Proof. apply spec_bind. Qed.

Lemma keeps_ret {A : Type} (a : A) : keeps Q (ret a).
Proof. apply spec_ret. Qed.

Lemma keeps_raise {A : Type} (e : exn) : keeps Q (@raise A e).
Proof. apply spec_raise. auto. Qed.

Lemma keeps_stop {A : Type} : keeps Q (@st_stop A).
Proof. apply spec_stop. auto. Qed.

Lemma keeps_lift {A : Type} (r : exn + A) : keeps Q (lift r).
Proof. apply spec_lift. auto. Qed.

Lemma keeps_emit (e : Event) : keeps Q (emit e).
Proof. intros s H. exact H. Qed.

Lemma keeps_get_session : keeps Q get_session.
Proof. intros s H. exact H. Qed.

Lemma keeps_modify (f : SessionState -> SessionState) :
  (forall ss, Q ss -> Q (f ss)) -> keeps Q (modify_session f).
Proof. intros Hf s H. exact (Hf _ H). Qed.

Lemma keeps_responses_create (client : OpenAI) (r : Request) :
  keeps Q (responses_create_on w client r).
Proof.
  intros s H. unfold responses_create_on.
  destruct (responses_create w (clock s) r); exact H.
Qed.

Lemma keeps_get_answers (questions : list string) :
  keeps Q (get_answers w questions).
Proof.
  intros s H. unfold get_answers. rewrite get_answers_from_spec. exact H.
Qed.

End Keeps.

Ltac keeps_step :=
  first
    [ apply keeps_ret | apply keeps_raise | apply keeps_stop | apply keeps_lift
    | apply keeps_emit | apply keeps_get_session | apply keeps_responses_create
    | apply keeps_get_answers
    | apply keeps_modify; solve [auto]
    | apply keeps_bind; [|intros ?]
    | match goal with
      | |- keeps _ (if ?b then _ else _) => destruct b
      | |- keeps _ (match ?x with _ => _ end) => destruct x
      end ].

Ltac keeps_auto := cbv zeta; repeat keeps_step.

Section KeepsScript.

Variable w : World.
Variable Q : SessionState -> Prop.

Lemma keeps_get_openai_client : keeps Q (get_openai_client w).
Proof. unfold get_openai_client, st_error. keeps_auto. Qed.

Lemma keeps_get_topic : keeps Q (get_topic w).
Proof. unfold get_topic, st_text_input. keeps_auto. Qed.

Lemma keeps_get_clarifying_questions (client : OpenAI) (topic : string) :
  keeps Q (get_clarifying_questions w client topic).
Proof. unfold get_clarifying_questions. keeps_auto. Qed.

Lemma keeps_get_goal_and_queries (client : OpenAI) (topic : string)
  (answers : list string) (clarify_id : option string) :
  keeps Q (get_goal_and_queries w client topic answers clarify_id).
Proof. unfold get_goal_and_queries. keeps_auto. Qed.

Lemma keeps_run_search (client : OpenAI) (q : pyval) :
  keeps Q (run_search w client q).
Proof. unfold run_search. keeps_auto. Qed.

Lemma keeps_evaluate (client : OpenAI) (goal : pyval) (c : list SearchResult) :
  keeps Q (evaluate w client goal c).
Proof. unfold evaluate. keeps_auto. Qed.

Lemma keeps_synthesize (client : OpenAI) (goal : pyval) (c : list SearchResult) :
  keeps Q (synthesize w client goal c).
Proof. unfold synthesize. keeps_auto. Qed.

Lemma keeps_main_questions (client : OpenAI) (topic : string) :
  (forall v ss, Q ss -> Q (set_clarify v ss)) ->
  (forall v ss, Q ss -> Q (set_last_topic v ss)) ->
  keeps Q (main_questions w client topic).
Proof.
  intros H1 H2. unfold main_questions.
  apply keeps_bind; [apply keeps_get_session | intros ss].
  assert (F : keeps Q
    (questions <- get_clarifying_questions w client topic;;
     modify_session (set_clarify questions);;
     modify_session (set_last_topic topic);; ret questions)).
  { apply keeps_bind; [apply keeps_get_clarifying_questions | intros qs].
    keeps_auto. }
  cbv zeta. destruct (ss_clarify ss), (ss_last_topic ss); try exact F.
  destruct (negb _); [exact F | apply keeps_ret].
Qed.

Lemma keeps_main_plan (client : OpenAI) (topic : string) (answers : list string) :
  (forall v ss, Q ss -> Q (set_goal_plan v ss)) ->
  (forall v ss, Q ss -> Q (set_clarify_id v ss)) ->
  (forall v ss, Q ss -> Q (set_last_answers v ss)) ->
  keeps Q (main_plan w client topic answers).
Proof.
  intros H1 H2 H3. unfold main_plan.
  apply keeps_bind; [apply keeps_get_session | intros ss].
  assert (F : keeps Q
    (r <- get_goal_and_queries w client topic answers None;;
     modify_session (set_goal_plan (fst r));;
     modify_session (set_clarify_id (snd r));;
     modify_session (set_last_answers answers);; ret r)).
  { apply keeps_bind; [apply keeps_get_goal_and_queries | intros r].
    keeps_auto. }
  cbv zeta. destruct (ss_goal_plan ss), (ss_last_answers ss); try exact F.
  destruct (negb _); [exact F|]. keeps_auto.
Qed.

End KeepsScript.

(** * The collected list keeps distinct queries *)

Section Distinct.

Lemma distinct_snoc (c : list SearchResult) (r : SearchResult) :
  distinct_queries c -> already_collected (query r) c = false ->
  distinct_queries (c ++ [r]).
Proof.
  unfold distinct_queries. induction 1 as [|a l Ha Hl IH]; intros Hr; simpl.
  - constructor; constructor.
  - simpl in Hr. apply orb_false_iff in Hr as [Har Hr].
    constructor; [|now apply IH].
    apply Forall_app. split; [exact Ha|]. constructor; [exact Har | constructor].
Qed.

Lemma research_loop_distinct (w : World) (client : OpenAI) (queries_to_run : pyval)
  (qs : list pyval) :
  forall s o s',
    distinct_queries (collected_of s) ->
    research_loop w client queries_to_run qs (collected_of s) s = (o, s') ->
    distinct_queries (collected_of s')
    /\ (forall c', o = Returned c' -> c' = collected_of s').
Proof.
  induction qs as [|q rest IH]; intros s o s' Hd; simpl.
  - unfold ret. intros H. injection H as <- <-. split; [exact Hd|].
    intros c' H. now injection H as <-.
  - destruct (research_turn_cases w client queries_to_run (collected_of s) q s)
      as [[Ha Ht] | [Ha [[e Ht] | [r [Hq Ht]]]]].
    + rewrite (bind_returned _ _ _ _ _ Ht). now apply IH.
    + rewrite (bind_raised _ _ _ _ _ Ht). intros H. injection H as <- <-.
      split; [exact Hd | discriminate].
    + rewrite (bind_returned _ _ _ _ _ Ht).
      match goal with
      | |- research_loop _ _ _ _ _ ?s2 = _ -> _ =>
          change (collected_of s ++ [r]) with (collected_of s2) at 1;
          apply IH
      end.
      unfold collected_of at 1. simpl. apply distinct_snoc; [exact Hd|].
      now rewrite Hq.
Qed.

Lemma keeps_main_evaluate (w : World) (client : OpenAI) (goal : pyval)
  (c : list SearchResult) (clarify_id : string) :
  keeps distinct_session (main_evaluate w client goal c clarify_id).
Proof.
  unfold main_evaluate, st_success, st_markdown, st_warning.
  apply keeps_bind; [apply keeps_evaluate | intros sat].
  destruct sat.
  - apply keeps_bind; [apply keeps_emit | intros _].
    apply keeps_bind; [apply keeps_synthesize | intros report].
    apply keeps_bind; [apply keeps_emit | intros _].
    apply keeps_bind; [apply keeps_modify; auto | intros _].
    apply keeps_modify. intros ss _. constructor.
  - keeps_auto.
Qed.

Lemma keeps_main_research (w : World) (client : OpenAI) (goal queries : pyval)
  (clarify_id : string) :
  keeps distinct_session (main_research w client goal queries clarify_id).
Proof.
  intros s Hd. unfold on_session in Hd.
  rewrite main_research_unfold. cbv zeta.
  destruct (_ || _); [|exact Hd].
  set (s2 := with_session _ _).
  assert (Hd2 : distinct_queries (collected_of s2)) by exact Hd.
  destruct (py_iter _) as [e|qs]; [exact Hd2|].
  change (collected_of s) with (collected_of s2).
  unfold bind.
  destruct (research_loop w client _ qs (collected_of s2) s2) as [o s3] eqn:L.
  destruct (research_loop_distinct _ _ _ _ _ _ _ Hd2 L) as [Hd3 _].
  destruct o as [c'|e|]; [|exact Hd3|exact Hd3].
  exact (keeps_main_evaluate w client goal c' clarify_id s3 Hd3).
Qed.

Lemma keeps_main (w : World) : keeps distinct_session (main w).
Proof.
  unfold main, st_title, st_write, st_info, st_subheader.
  apply keeps_bind; [apply keeps_emit | intros _].
  apply keeps_bind; [apply keeps_emit | intros _].
  apply keeps_bind; [apply keeps_get_openai_client | intros client].
  apply keeps_bind; [apply keeps_get_topic | intros topic].
  destruct (is_empty_str topic); [apply keeps_emit|].
  apply keeps_bind; [apply keeps_main_questions; auto | intros questions].
  apply keeps_bind; [apply keeps_get_answers | intros answers].
  destruct (negb (all_answered answers)); [apply keeps_emit|].
  apply keeps_bind; [apply keeps_main_plan; auto | intros r].
  cbv zeta.
  apply keeps_bind; [apply keeps_lift | intros goal].
  apply keeps_bind; [apply keeps_lift | intros queries].
  apply keeps_bind; [apply keeps_emit | intros _].
  apply keeps_bind; [apply keeps_emit | intros _].
  apply keeps_bind; [apply keeps_emit | intros _].
  apply keeps_bind; [apply keeps_emit | intros _].
  apply keeps_main_research.
Qed.

Lemma distinct_strings_NoDup (c : list SearchResult) :
  distinct_queries c ->
  (forall x, In x c -> exists t, query x = PStr t) ->
  NoDup (map query c).
Proof.
  unfold distinct_queries. induction 1 as [|a l Ha Hl IH]; intros Hs; simpl.
  - constructor.
  - constructor.
    + intros Hin. apply in_map_iff in Hin as (b & Hb & Hbl).
      rewrite Forall_forall in Ha. specialize (Ha b Hbl).
      destruct (Hs a (or_introl eq_refl)) as [t Ht].
      rewrite Hb, Ht in Ha. simpl in Ha.
      now rewrite String.eqb_refl in Ha.
    + apply IH. intros x Hx. apply Hs. now right.
Qed.

(** C8. The [query] fields of [collected] are pairwise distinct at every
    point: in the session store after any sequence of runs of [main]
    starting from a fresh session, whatever the worlds of the runs and
    however each run ends; across a single run of [main] from any session
    where it holds; and across the research loop over any list of queries
    (so also over every prefix of the queries it runs over, that is after
    each of its turns), where also the list the loop returns is the one in
    the session.  Distinct means that [==] is false between the query of an
    element and the query of any later one; for queries that are strings
    the list of queries then has no duplicate. *)
Theorem collected_queries_stay_distinct :
  (forall ws, distinct_queries (collected_of (run_session ws)))
  /\ (forall w s, distinct_queries (collected_of s) ->
        distinct_queries (collected_of (snd (main w s))))
  /\ (forall w client queries_to_run qs s o s',
        distinct_queries (collected_of s) ->
        research_loop w client queries_to_run qs (collected_of s) s = (o, s') ->
        distinct_queries (collected_of s')
        /\ (forall c', o = Returned c' -> c' = collected_of s'))
  /\ (forall c, distinct_queries c ->
        (forall x, In x c -> exists t, query x = PStr t) ->
        NoDup (map query c)).
Proof.
  assert (M1 : forall w s, distinct_queries (collected_of s) ->
                 distinct_queries (collected_of (snd (main w s)))).
  { intros w s H. pose proof (keeps_main w s H) as K.
    unfold outcome_post in K. destruct (fst (main w s)); exact K. }
  repeat split.
  - intros ws. unfold run_session.
    assert (G : forall s, distinct_queries (collected_of s) ->
                  distinct_queries
                    (collected_of (fold_left (fun s w => snd (main w s)) ws s))).
    { induction ws as [|w ws IH]; intros s H; simpl; [exact H|].
      apply IH. now apply M1. }
    apply G. constructor.
  - exact M1.
  - eapply research_loop_distinct; eassumption.
  - eapply research_loop_distinct; eassumption.
  - apply distinct_strings_NoDup.
Qed.

End Distinct.

(** * After the evaluation *)

Section Evaluation.

Variable w : World.
Variable client : OpenAI.
Variable goal : pyval.
Variable collected : list SearchResult.

Lemma evaluate_state (s : State) :
  snd (evaluate w client goal collected s)
  = called s (review_request goal collected).
Proof.
  unfold evaluate, bind, responses_create_on.
  destruct (responses_create w (clock s) (review_request goal collected)) as [r|];
    [|reflexivity].
  destruct (output_text r 0); reflexivity.
Qed.

Lemma synthesize_state (s : State) :
  snd (synthesize w client goal collected s)
  = called s (synthesis_request goal collected).
Proof.
  unfold synthesize, bind, responses_create_on.
  destruct (responses_create w (clock s) (synthesis_request goal collected)) as [r|];
    [|reflexivity].
  destruct (output_text r 0); reflexivity.
Qed.

Lemma same_but_queries_refl (ss : SessionState) : same_but_queries ss ss.
Proof. repeat split. Qed.

Lemma same_but_queries_set (v : pyval) (ss : SessionState) :
  same_but_queries (set_queries v ss) ss.
Proof. repeat split. Qed.

(** The two branches of lines 161-179, from the state in which [evaluate]
    is called. *)
Lemma main_evaluate_branches (clarify_id : string)
  (s s1 : State) (satisfied : bool) :
  evaluate w client goal collected s = (Returned satisfied, s1) ->
  (satisfied = true ->
   forall report s2,
     synthesize w client goal collected
       (logged s1 [EvSuccess "Goal satisfied! Generating final report..."])
     = (Returned report, s2) ->
     main_evaluate w client goal collected clarify_id s
     = (Returned tt,
        with_session (logged s2 [EvMarkdown report])
          (set_collected [] (set_research_started false (session_state s)))))
  /\ (satisfied = false ->
      forall o s',
        main_evaluate w client goal collected clarify_id s = (o, s') ->
        same_but_queries (session_state s') (session_state s)
        /\ (forall more t queries,
              responses_create w (clock s1) (more_request collected clarify_id)
              = Some more ->
              output_text more 0 = inr t ->
              json_loads w t = Some queries ->
              o = Returned tt
              /\ session_state s' = set_queries queries (session_state s))
        /\ (o <> Returned tt -> session_state s' = session_state s)).
Proof.
  intros He.
  assert (Hs1 : s1 = called s (review_request goal collected)).
  { rewrite <- evaluate_state. now rewrite He. }
  split.
  - intros -> report s2 Hsyn.
    assert (Hs2 : session_state s2 = session_state s).
    { replace s2 with (snd (synthesize w client goal collected
        (logged s1 [EvSuccess "Goal satisfied! Generating final report..."])))
        by now rewrite Hsyn.
      rewrite synthesize_state, Hs1. reflexivity. }
    unfold main_evaluate. rewrite (bind_returned _ _ _ _ _ He).
    unfold st_success. unfold bind at 1. rewrite emit_logged.
    rewrite (bind_returned _ _ _ _ _ Hsyn).
    unfold st_markdown, bind, emit, modify_session, with_session, logged. simpl.
    now rewrite Hs2.
  - intros -> o s'. unfold main_evaluate. rewrite (bind_returned _ _ _ _ _ He).
    unfold bind, responses_create_on, loads.
    assert (Hss : session_state s1 = session_state s) by now rewrite Hs1.
    destruct (responses_create w (clock s1) (more_request collected clarify_id))
      as [more|].
    + destruct (output_text more 0) as [e|t] eqn:Et; simpl.
      * intros H. injection H as <- <-. simpl. rewrite Hss.
        split; [apply same_but_queries_refl|]. split; [|reflexivity].
        intros more' t' q' Hm Ht Hq. injection Hm as <-. congruence.
      * destruct (json_loads w t) as [queries|] eqn:Eq; simpl.
        -- intros H. injection H as <- <-. simpl. rewrite Hss.
           split; [apply same_but_queries_set|]. split.
           ++ intros more' t' q' Hm Ht Hq.
              injection Hm as <-. rewrite Et in Ht. injection Ht as <-.
              rewrite Eq in Hq. injection Hq as <-. now split.
           ++ intros Hne. now contradiction Hne.
        -- intros H. injection H as <- <-. simpl. rewrite Hss.
           split; [apply same_but_queries_refl|]. split; [|reflexivity].
           intros more' t' q' Hm Ht Hq.
           injection Hm as <-. rewrite Et in Ht. injection Ht as <-. congruence.
    + intros H. injection H as <- <-. simpl. rewrite Hss.
      split; [apply same_but_queries_refl|]. split; [|reflexivity].
      intros more' t' q' Hm. discriminate.
Qed.

End Evaluation.

(** * The page as a whole *)

Section Page.

Variable w : World.

(** [main] run on a state, step by step. *)
Lemma main_unfold (s : State) :
  main w s
  = match OPENAI_API_KEY w with
    | None =>
        (Stopped, logged s halted_page)
    | Some k =>
        if is_empty_str k then
          (Stopped, logged s halted_page)
        else
          let client := {| api_key := k |} in
          let s0 := logged s (page_head k) in
          let topic := strip (ui_text w "topic") in
          if is_empty_str topic then
            (Returned tt, logged s0 [EvInfo "Enter a research topic to begin."])
          else
            match main_questions w client topic s0 with
            | (Returned questions, s1) =>
                let answers := typed_answers w 0 (length questions) in
                let s2 := logged s1 (answer_inputs 0 questions) in
                if negb (all_answered answers) then
                  (Returned tt,
                   logged s2 [EvInfo "Please answer all clarifying questions."])
                else
                  match main_plan w client topic answers s2 with
                  | (Returned r, s3) =>
                      match getitem (fst r) "goal" with
                      | inl e => (Raised e, s3)
                      | inr goal =>
                          match getitem (fst r) "queries" with
                          | inl e => (Raised e, s3)
                          | inr queries =>
                              main_research w client goal queries (snd r)
                                (logged s3 (plan_shown goal queries))
                          end
                      end
                  | (Raised e, s3) => (Raised e, s3)
                  | (Stopped, s3) => (Stopped, s3)
                  end
            | (Raised e, s1) => (Raised e, s1)
            | (Stopped, s1) => (Stopped, s1)
            end
    end.
Proof.
  destruct (OPENAI_API_KEY w) as [k|] eqn:Ek.
  2:{ now apply main_halts; left. }
  destruct (is_empty_str k) eqn:Ee.
  { destruct k; [|discriminate]. now apply main_halts; right. }
  cbv zeta. unfold page_head, plan_shown.
  unfold main, st_title, st_write, get_openai_client, get_topic, st_text_input.
  rewrite Ek, Ee.
  unfold bind at 1. rewrite emit_logged.
  unfold bind at 1. rewrite emit_logged.
  unfold bind at 1. unfold bind at 1. rewrite emit_logged. unfold ret at 1.
  unfold bind at 1. unfold bind at 1. unfold bind at 1.
  rewrite emit_logged. unfold ret at 1. unfold ret at 1.
  rewrite !logged_logged. simpl app.
  destruct (is_empty_str (strip (ui_text w "topic"))).
  { unfold st_info. rewrite emit_logged, ?logged_logged. reflexivity. }
  unfold bind at 1.
  destruct (main_questions w _ _ _) as [[questions|e|] s1]; try reflexivity.
  unfold bind at 1. unfold get_answers. rewrite get_answers_from_spec. simpl app.
  destruct (negb _).
  { unfold st_info. rewrite emit_logged, ?logged_logged. reflexivity. }
  unfold bind at 1.
  destruct (main_plan w _ _ _ _) as [[r|e|] s3]; try reflexivity.
  unfold bind at 1.
  destruct (getitem (fst r) "goal") as [e|goal]; [reflexivity|].
  simpl lift. unfold ret at 1.
  unfold bind at 1.
  destruct (getitem (fst r) "queries") as [e|queries]; [reflexivity|].
  simpl lift. unfold ret at 1.
  unfold st_subheader.
  unfold bind at 1. rewrite emit_logged.
  unfold bind at 1. rewrite emit_logged.
  unfold bind at 1. rewrite emit_logged.
  unfold bind at 1. rewrite emit_logged.
  rewrite !logged_logged. reflexivity.
Qed.

(** The questions are either the cached ones, with no call made, or the
    split text of a fresh answer of the service. *)
Lemma main_questions_returned (client : OpenAI) (topic : string)
  (s s1 : State) (questions : list string) :
  main_questions w client topic s = (Returned questions, s1) ->
  (s1 = s /\ ss_clarify (session_state s) = Some questions
   /\ ss_last_topic (session_state s) = Some topic)
  \/ (s1 = with_session (called s (clarify_request topic))
              (set_last_topic topic (set_clarify questions (session_state s)))
      /\ exists clarify t,
           responses_create w (clock s) (clarify_request topic) = Some clarify
           /\ output_text clarify 0 = inr t
           /\ questions = split newline t).
Proof.
  assert (F : (questions0 <- get_clarifying_questions w client topic;;
               modify_session (set_clarify questions0);;
               modify_session (set_last_topic topic);; ret questions0) s
              = (Returned questions, s1) ->
              s1 = with_session (called s (clarify_request topic))
                     (set_last_topic topic (set_clarify questions (session_state s)))
              /\ exists clarify t,
                   responses_create w (clock s) (clarify_request topic) = Some clarify
                   /\ output_text clarify 0 = inr t
                   /\ questions = split newline t).
  { unfold get_clarifying_questions, bind, responses_create_on.
    destruct (responses_create w (clock s) (clarify_request topic)) as [clarify|];
      [|discriminate].
    destruct (output_text clarify 0) as [e|t] eqn:Et; simpl; [discriminate|].
    intros H. injection H as <- <-. split; [reflexivity|].
    exists clarify, t. auto. }
  unfold main_questions, bind at 1, get_session. cbv zeta.
  destruct (ss_clarify (session_state s)) as [cached|];
    [|intros H; right; exact (F H)].
  destruct (ss_last_topic (session_state s)) as [last|];
    [|intros H; right; exact (F H)].
  destruct (String.eqb last topic) eqn:E; cbn [negb];
    [|intros H; right; exact (F H)].
  intros H. injection H as <- <-. apply String.eqb_eq in E. subst last.
  left. auto.
Qed.

Lemma all_answered_typed (n : nat) :
  forall i j, j < n -> ui_text w (answer_key (i + j)) = EmptyString ->
    all_answered (typed_answers w i n) = false.
Proof.
  induction n as [|n IH]; intros i j Hj He; [lia|]. simpl.
  destruct j as [|j].
  - rewrite Nat.add_0_r in He. now rewrite He.
  - rewrite (IH (S i) j); [apply andb_false_r | lia |].
    now rewrite Nat.add_succ_r in He.
Qed.

Lemma nonempty_key (k : string) : k <> EmptyString -> is_empty_str k = false.
Proof. destruct k; [contradiction | reflexivity]. Qed.

Lemma main_empty_topic (s : State) (k : string) :
  OPENAI_API_KEY w = Some k -> k <> EmptyString ->
  strip (ui_text w "topic") = EmptyString ->
  main w s
  = (Returned tt,
     logged s (page_head k ++ [EvInfo "Enter a research topic to begin."])).
Proof.
  intros Hk Hne Ht. rewrite main_unfold, Hk, (nonempty_key k Hne). cbv zeta.
  rewrite Ht. simpl. now rewrite logged_logged.
Qed.

Lemma main_ends_with_evaluation (s s5 : State) (client : OpenAI) (goal : pyval)
  (collected : list SearchResult) (clarify_id : string) :
  reaches_evaluation w s client goal collected clarify_id s5 ->
  main w s = main_evaluate w client goal collected clarify_id s5.
Proof.
  intros (k & questions & s1 & r & s3 & queries & qs & Hk & Hne & -> & Ht & Hq
          & Ha & Hp & Hg & Hqs & -> & Hb & Hi & Hl).
  rewrite main_unfold, Hk, (nonempty_key k Hne). cbv zeta.
  rewrite (nonempty_key _ Ht), Hq, Ha. cbn [negb]. rewrite Hp, Hg, Hqs.
  rewrite main_research_unfold. cbv zeta.
  change (session_state (logged s3 (plan_shown goal queries)))
    with (session_state s3).
  change (collected_of (logged s3 (plan_shown goal queries)))
    with (collected_of s3).
  rewrite Hb, Hi, logged_logged.
  now rewrite (bind_returned _ _ _ _ _ Hl).
Qed.

(** C9. Take a run of [main] that gets as far as the evaluation.  If
    [evaluate] returns true and [synthesize] produces the report, [main]
    shows the report and returns with the session of the moment of the
    evaluation in which 'research_started' is False and 'collected' is the
    empty list.  If [evaluate] returns false, then however the run ends the
    session agrees with the one of the moment of the evaluation on every key
    but 'queries' (so 'collected' is unchanged); when the follow-up answer
    parses as JSON, [main] returns and 'queries' holds the parsed value;
    when the run does not return, the session is unchanged altogether. *)
Theorem evaluation_branches_update_session (s s5 s6 : State) (client : OpenAI)
  (goal : pyval) (collected : list SearchResult) (clarify_id : string)
  (satisfied : bool) :
  reaches_evaluation w s client goal collected clarify_id s5 ->
  evaluate w client goal collected s5 = (Returned satisfied, s6) ->
  (satisfied = true ->
   forall report s7,
     synthesize w client goal collected
       (logged s6 [EvSuccess "Goal satisfied! Generating final report..."])
     = (Returned report, s7) ->
     main w s
     = (Returned tt,
        with_session (logged s7 [EvMarkdown report])
          (set_collected [] (set_research_started false (session_state s5)))))
  /\ (satisfied = false ->
      forall o s',
        main w s = (o, s') ->
        same_but_queries (session_state s') (session_state s5)
        /\ (forall more t queries,
              responses_create w (clock s6) (more_request collected clarify_id)
              = Some more ->
              output_text more 0 = inr t ->
              json_loads w t = Some queries ->
              o = Returned tt
              /\ session_state s' = set_queries queries (session_state s5))
        /\ (o <> Returned tt -> session_state s' = session_state s5)).
Proof.
  intros Hreach He. rewrite (main_ends_with_evaluation _ _ _ _ _ _ Hreach).
  exact (main_evaluate_branches w client goal collected clarify_id s5 s6
           satisfied He).
Qed.

End Page.

(** * Malformed JSON *)

Section JsonFaults.

Variable w : World.
Variable base : list Event.

Lemma clean_same_log (s s' : State) : log s' = log s -> clean w base s -> clean w base s'.
Proof. intros H (evs & Hl & Hq). exists evs. now rewrite H. Qed.

Lemma clean_logged (s : State) (evs : list Event) :
  Forall (quiet w) evs -> clean w base s -> clean w base (logged s evs).
Proof.
  intros Hn (evs0 & Hl & Hq). exists (evs0 ++ evs). simpl.
  rewrite Hl, app_assoc. split; [reflexivity|]. now apply Forall_app.
Qed.

Lemma clean_called (s : State) (r : Request) :
  ~ malformed w (clock s) r -> clean w base s -> clean w base (called s r).
Proof.
  intros Hn (evs0 & Hl & Hq). exists (evs0 ++ [EvApiCall (clock s) r]). simpl.
  rewrite Hl, app_assoc. split; [reflexivity|].
  apply Forall_app. split; [exact Hq|]. now constructor.
Qed.

Lemma json_bind {A B : Type} (m : M A) (k : A -> M B) :
  json_spec w base m -> (forall a, json_spec w base (k a)) ->
  json_spec w base (bind m k).
Proof. apply spec_bind. Qed.

Lemma json_ret {A : Type} (a : A) : json_spec w base (ret a).
Proof. apply spec_ret. Qed.

Lemma json_raise {A : Type} (e : exn) : json_spec w base (@raise A e).
Proof. apply spec_raise. intros s H. now left. Qed.

Lemma json_stop {A : Type} : json_spec w base (@st_stop A).
Proof. apply spec_stop. auto. Qed.

Lemma json_lift {A : Type} (r : exn + A) : json_spec w base (lift r).
Proof. apply spec_lift. intros e _ s H. now left. Qed.

Lemma json_emit (e : Event) : quiet w e -> json_spec w base (emit e).
Proof.
  intros Hq s H. simpl. apply (clean_logged s [e]); [|exact H].
  now constructor.
Qed.

Lemma json_get_session : json_spec w base get_session.
Proof. intros s H. exact H. Qed.

Lemma json_modify (f : SessionState -> SessionState) :
  json_spec w base (modify_session f).
Proof. intros s H. simpl. now apply (clean_same_log s). Qed.

Lemma json_get_answers (questions : list string) :
  json_spec w base (get_answers w questions).
Proof.
  intros s H. unfold get_answers. rewrite get_answers_from_spec. simpl.
  apply clean_logged; [|exact H].
  generalize 0. induction questions as [|q rest IH]; intros i; simpl;
    constructor; [exact I | apply IH].
Qed.

(** A call whose answer is not parsed. *)
Lemma json_responses_create (client : OpenAI) (r : Request) :
  ~ parses_json r -> json_spec w base (responses_create_on w client r).
Proof.
  intros Hr s H. unfold responses_create_on. fold (called s r).
  assert (C : clean w base (called s r)).
  { apply clean_called; [|exact H]. intros [Hp _]. now apply Hr. }
  destruct (responses_create w (clock s) r); simpl; [exact C | now left].
Qed.

(** A call whose answer is parsed, followed by anything. *)
Lemma json_parsed_call {B : Type} (client : OpenAI) (r : Request)
  (k : Response -> pyval -> M B) :
  parses_json r ->
  (forall resp v, json_spec w base (k resp v)) ->
  json_spec w base
    (resp <- responses_create_on w client r;;
     t <- lift (output_text resp 0);;
     v <- lift (loads w t);;
     k resp v).
Proof.
  intros Hr Hk. apply spec_run. intros s o s' H.
  unfold bind at 1, responses_create_on. fold (called s r).
  destruct (responses_create w (clock s) r) as [resp|] eqn:Er.
  - unfold bind at 1.
    destruct (output_text resp 0) as [e|t] eqn:Et; simpl lift.
    + intros Hrun. injection Hrun as <- <-. left.
      apply clean_called; [|exact H].
      intros (_ & resp' & t' & Hr' & Ht' & _). congruence.
    + unfold ret at 1. unfold bind at 1, loads.
      destruct (json_loads w t) as [v|] eqn:Ev; simpl lift.
      * unfold ret at 1. intros Hrun.
        assert (C : clean w base (called s r)).
        { apply clean_called; [|exact H].
          intros (_ & resp' & t' & Hr' & Ht' & Hv'). congruence. }
        pose proof (Hk resp v _ C) as K. now rewrite Hrun in K.
      * intros Hrun. injection Hrun as <- <-. right. split; [reflexivity|].
        destruct H as (evs & Hl & Hq). exists evs, (clock s), r. simpl.
        rewrite Hl, app_assoc. repeat split; auto. now exists resp, t.
  - intros Hrun. injection Hrun as <- <-. left.
    apply clean_called; [|exact H].
    intros (_ & resp' & t' & Hr' & _). congruence.
Qed.

Lemma clarify_request_unparsed (topic : string) : ~ parses_json (clarify_request topic).
Proof. intros [(t & a & c & H) | (c & i & H)]; discriminate H. Qed.

Lemma search_request_unparsed (q : pyval) : ~ parses_json (search_request q).
Proof. intros [(t & a & c & H) | (c & i & H)]; discriminate H. Qed.

Lemma review_request_unparsed (goal : pyval) (c : list SearchResult) :
  ~ parses_json (review_request goal c).
Proof. intros [(t & a & c' & H) | (c' & i & H)]; discriminate H. Qed.

Lemma synthesis_request_unparsed (goal : pyval) (c : list SearchResult) :
  ~ parses_json (synthesis_request goal c).
Proof. intros [(t & a & c' & H) | (c' & i & H)]; discriminate H. Qed.

End JsonFaults.

Ltac json_step :=
  first
    [ apply json_ret | apply json_raise | apply json_stop | apply json_lift
    | apply json_emit; exact I | apply json_get_session | apply json_modify
    | apply json_get_answers
    | apply json_responses_create;
      first [ apply clarify_request_unparsed | apply search_request_unparsed
            | apply review_request_unparsed | apply synthesis_request_unparsed ]
    | apply json_bind; [|intros ?]
    | match goal with
      | |- json_spec _ _ (if ?b then _ else _) => destruct b
      | |- json_spec _ _ (match ?x with _ => _ end) => destruct x
      end ].

Ltac json_auto := cbv zeta; repeat json_step.

Section JsonFaultsScript.

Variable w : World.
Variable base : list Event.

Lemma json_get_openai_client : json_spec w base (get_openai_client w).
Proof. unfold get_openai_client, st_error. json_auto. Qed.

Lemma json_get_topic : json_spec w base (get_topic w).
Proof. unfold get_topic, st_text_input. json_auto. Qed.

Lemma json_main_questions (client : OpenAI) (topic : string) :
  json_spec w base (main_questions w client topic).
Proof. unfold main_questions, get_clarifying_questions. json_auto. Qed.

Lemma json_get_goal_and_queries (client : OpenAI) (topic : string)
  (answers : list string) (clarify_id : option string) :
  json_spec w base (get_goal_and_queries w client topic answers clarify_id).
Proof.
  unfold get_goal_and_queries.
  apply (json_parsed_call w base client _
           (fun resp plan => ret (plan, id resp))).
  - left. now exists topic, answers, clarify_id.
  - intros resp v. apply json_ret.
Qed.

Lemma json_main_plan (client : OpenAI) (topic : string) (answers : list string) :
  json_spec w base (main_plan w client topic answers).
Proof.
  unfold main_plan.
  apply json_bind; [apply json_get_session | intros ss].
  assert (F : json_spec w base
    (r <- get_goal_and_queries w client topic answers None;;
     modify_session (set_goal_plan (fst r));;
     modify_session (set_clarify_id (snd r));;
     modify_session (set_last_answers answers);; ret r)).
  { apply json_bind; [apply json_get_goal_and_queries | intros r]. json_auto. }
  cbv zeta. destruct (ss_goal_plan ss), (ss_last_answers ss); try exact F.
  destruct (negb _); [exact F|]. json_auto.
Qed.

Lemma json_research_loop (client : OpenAI) (queries_to_run : pyval)
  (qs : list pyval) :
  forall collected,
    json_spec w base (research_loop w client queries_to_run qs collected).
Proof.
  induction qs as [|q rest IH]; intros collected; simpl.
  - apply json_ret.
  - apply json_bind; [|intros c; apply IH].
    unfold research_turn, st_spinner, run_search. json_auto.
Qed.

Lemma json_main_evaluate (client : OpenAI) (goal : pyval)
  (collected : list SearchResult) (clarify_id : string) :
  json_spec w base (main_evaluate w client goal collected clarify_id).
Proof.
  unfold main_evaluate.
  apply json_bind; [unfold evaluate; json_auto | intros satisfied].
  destruct satisfied.
  - unfold st_success, synthesize, st_markdown. json_auto.
  - apply (json_parsed_call w base client _
             (fun _ queries =>
                modify_session (set_queries queries);;
                st_warning "More research needed. New queries generated. Click 'Run Research' again.")).
    + right. now exists collected, clarify_id.
    + intros resp v. unfold st_warning. json_auto.
Qed.

Lemma json_main_research (client : OpenAI) (goal queries : pyval)
  (clarify_id : string) :
  json_spec w base (main_research w client goal queries clarify_id).
Proof.
  unfold main_research, st_button.
  apply json_bind; [json_auto | intros pressed].
  apply json_bind; [apply json_get_session | intros ss].
  destruct (_ || _); [|apply json_ret].
  apply json_bind; [apply json_modify | intros _]. cbv zeta.
  apply json_bind; [apply json_lift | intros qs].
  apply json_bind; [apply json_research_loop | intros c].
  apply json_main_evaluate.
Qed.

Lemma json_main : json_spec w base (main w).
Proof.
  unfold main, st_title, st_write, st_info, st_subheader.
  apply json_bind; [json_auto | intros _].
  apply json_bind; [json_auto | intros _].
  apply json_bind; [apply json_get_openai_client | intros client].
  apply json_bind; [apply json_get_topic | intros topic].
  destruct (is_empty_str topic); [json_auto|].
  apply json_bind; [apply json_main_questions | intros questions].
  apply json_bind; [apply json_get_answers | intros answers].
  destruct (negb (all_answered answers)); [json_auto|].
  apply json_bind; [apply json_main_plan | intros r]. cbv zeta.
  apply json_bind; [apply json_lift | intros goal].
  apply json_bind; [apply json_lift | intros queries].
  apply json_bind; [json_auto | intros _].
  apply json_bind; [json_auto | intros _].
  apply json_bind; [json_auto | intros _].
  apply json_bind; [json_auto | intros _].
  apply json_main_research.
Qed.

End JsonFaultsScript.

Lemma last_or_earlier {T : Type} (evs pre post : list T) (c x : T) :
  evs ++ [c] = pre ++ x :: post -> (post = [] /\ x = c) \/ In x evs.
Proof.
  intros H. destruct post as [|p post'] using rev_ind.
  - left. apply app_inj_tail in H as [_ H]. auto.
  - right. clear IHpost'.
    change (pre ++ x :: post' ++ [p]) with (pre ++ (x :: post') ++ [p]) in H.
    rewrite app_assoc in H. apply app_inj_tail in H as [H _].
    rewrite H. apply in_or_app. right. now left.
Qed.

(** C5. When the text that answers the request of [get_goal_and_queries] is
    not valid JSON, the function raises JSONDecodeError right after the
    call.  And in any run of [main], if a request whose answer is parsed
    (that of [get_goal_and_queries] or the follow-up request for more
    queries) is answered with a text that is not valid JSON, the run ends
    with JSONDecodeError raised out of [main], and that call is the last
    thing the run did: nothing catches the exception, nothing is retried. *)
Theorem malformed_json_ends_the_run (w : World) :
  (forall client topic answers clarify_id s resp t,
      responses_create w (clock s) (plan_request topic answers clarify_id)
      = Some resp ->
      output_text resp 0 = inr t ->
      json_loads w t = None ->
      get_goal_and_queries w client topic answers clarify_id s
      = (Raised JSONDecodeError,
         called s (plan_request topic answers clarify_id)))
  /\ (forall s o s' pre n r post resp t,
        main w s = (o, s') ->
        log s' = log s ++ pre ++ EvApiCall n r :: post ->
        parses_json r ->
        responses_create w n r = Some resp ->
        output_text resp 0 = inr t ->
        json_loads w t = None ->
        o = Raised JSONDecodeError /\ post = []).
Proof.
  split.
  - intros client topic answers clarify_id s resp t Hr Ht Hv.
    unfold get_goal_and_queries, bind, responses_create_on.
    rewrite Hr, Ht. simpl. unfold loads. now rewrite Hv.
  - intros s o s' pre n r post resp t Hm Hl Hp Hr Ht Hv.
    assert (Bad : malformed w n r) by (split; [exact Hp | now exists resp, t]).
    assert (C0 : clean w (log s) s).
    { exists []. now rewrite app_nil_r. }
    pose proof (json_main w (log s) s C0) as K. rewrite Hm in K. simpl in K.
    assert (NotClean : ~ clean w (log s) s').
    { intros (evs & He & Hq). rewrite Hl in He. apply app_inv_head in He.
      rewrite <- He in Hq. apply Forall_app in Hq as [_ Hq].
      inversion Hq; subst. now apply H1. }
    destruct o as [[]|e|]; simpl in K; try contradiction.
    destruct K as [K | [-> (evs & n0 & r0 & He & Hq & _)]]; [contradiction|].
    split; [reflexivity|].
    rewrite Hl in He. apply app_inv_head in He. symmetry in He.
    destruct (last_or_earlier _ _ _ _ _ He) as [[Hpost _] | Hin]; [exact Hpost|].
    rewrite Forall_forall in Hq. now destruct (Hq _ Hin).
Qed.

(** * The calls to the model service *)

Section ServiceCalls.

Variable w : World.
Variable client : OpenAI.

Lemma lower_app (a b : string) : lower (a ++ b) = (lower a ++ lower b)%string.
Proof. induction a as [|c a IH]; simpl; [reflexivity | now rewrite IH]. Qed.

Lemma split_no_sep (sep : ascii) (x : string) :
  count_char sep x = 0 -> split sep x = [x].
Proof.
  induction x as [|c x IH]; simpl; [reflexivity|].
  destruct (Ascii.eqb c sep); simpl; [discriminate|].
  intros H. now rewrite (IH H).
Qed.

Lemma split_app_sep (sep : ascii) (x rest : string) :
  count_char sep x = 0 ->
  split sep (x ++ String sep rest) = x :: split sep rest.
Proof.
  induction x as [|c x IH]; simpl.
  - intros _. now rewrite Ascii.eqb_refl.
  - destruct (Ascii.eqb c sep); simpl; [discriminate|].
    intros H. now rewrite (IH H).
Qed.

Lemma split_join (sep : ascii) (l : list string) :
  l <> [] -> Forall (fun q => count_char sep q = 0) l ->
  split sep (join sep l) = l.
Proof.
  induction l as [|x l IH]; [contradiction|]. intros _ H.
  inversion H as [|? ? Hx Hl]; subst.
  destruct l as [|y l].
  - simpl. now apply split_no_sep.
  - change (join sep (x :: y :: l))
      with (x ++ String sep (join sep (y :: l)))%string.
    rewrite (split_app_sep sep x _ Hx). f_equal.
    apply IH; [discriminate | exact Hl].
Qed.

Lemma get_clarifying_questions_state (topic : string) (s : State) :
  snd (get_clarifying_questions w client topic s)
  = called s (clarify_request topic).
Proof.
  unfold get_clarifying_questions, bind, responses_create_on.
  destruct (responses_create w (clock s) (clarify_request topic)) as [r|];
    [|reflexivity].
  destruct (output_text r 0); reflexivity.
Qed.

Lemma get_goal_and_queries_state (topic : string) (answers : list string)
  (clarify_id : option string) (s : State) :
  snd (get_goal_and_queries w client topic answers clarify_id s)
  = called s (plan_request topic answers clarify_id).
Proof.
  unfold get_goal_and_queries, bind, responses_create_on.
  destruct (responses_create w (clock s) (plan_request topic answers clarify_id))
    as [r|]; [|reflexivity].
  destruct (output_text r 0) as [e|t]; [reflexivity|]. simpl.
  destruct (loads w t); reflexivity.
Qed.

Lemma run_search_state (q : pyval) (s : State) :
  snd (run_search w client q s) = called s (search_request q).
Proof.
  destruct (run_search_cases w client q s) as [[e H] | [r [_ H]]];
    now rewrite H.
Qed.

(** X1. Each of the five functions that talk to the model makes exactly one
    call, with its own request, and leaves the session store as it was,
    whether it returns or raises. *)
Theorem service_functions_make_one_call (topic : string) (answers : list string)
  (clarify_id : option string) (q goal : pyval) (collected : list SearchResult)
  (s : State) :
  snd (get_clarifying_questions w client topic s)
  = called s (clarify_request topic)
  /\ snd (get_goal_and_queries w client topic answers clarify_id s)
     = called s (plan_request topic answers clarify_id)
  /\ snd (run_search w client q s) = called s (search_request q)
  /\ snd (evaluate w client goal collected s)
     = called s (review_request goal collected)
  /\ snd (synthesize w client goal collected s)
     = called s (synthesis_request goal collected).
Proof.
  split; [apply get_clarifying_questions_state|].
  split; [apply get_goal_and_queries_state|].
  split; [apply run_search_state|].
  split; [apply evaluate_state | apply synthesize_state].
Qed.

(** X2. When the service answers a search, [run_search] raises IndexError if
    the response has fewer than two output items.  Otherwise it looks at the
    second item only for its text: it raises AttributeError if the item has
    no 'content', TypeError if its 'content' is None, IndexError if it is an
    empty list, AttributeError if its first part has no 'text'; and else it
    returns the query it was given, the id of the first item and that
    text. *)
Theorem run_search_reads_two_items (q : pyval) (s : State) (resp : Response) :
  responses_create w (clock s) (search_request q) = Some resp ->
  (length (output resp) < 2 ->
   run_search w client q s = (Raised IndexError, called s (search_request q)))
  /\ (forall out0 out1 rest,
        output resp = out0 :: out1 :: rest ->
        run_search w client q s
        = (match content out1 with
           | Absent => Raised AttributeError
           | IsNone => Raised TypeError
           | Has [] => Raised IndexError
           | Has (part :: _) =>
               match text part with
               | None => Raised AttributeError
               | Some t => Returned {| query := q; resp_id := item_id out0;
                                       research_output := t |}
               end
           end, called s (search_request q))).
Proof.
  intros Hr. split.
  - intros Hlen. unfold run_search, bind, responses_create_on. rewrite Hr.
    fold (called s (search_request q)).
    unfold output_text, output_at.
    destruct (output resp) as [|out0 [|out1 rest]]; simpl in *;
      [reflexivity | reflexivity | lia].
  - intros out0 out1 rest Ho.
    unfold run_search, bind, responses_create_on. rewrite Hr.
    fold (called s (search_request q)).
    unfold output_text, output_at, content0_text. rewrite Ho. simpl.
    destruct (content out1) as [| |[|part parts]]; try reflexivity.
    simpl. destruct (text part); reflexivity.
Qed.

(** X3. [evaluate] is blind to letter case and to context: if the review
    text holds, anywhere, three characters that lowercase to "yes", it
    returns true. *)
Theorem evaluate_ignores_case (goal : pyval) (collected : list SearchResult)
  (s : State) (review : Response) (pre u post : string) :
  responses_create w (clock s) (review_request goal collected) = Some review ->
  output_text review 0 = inr (pre ++ u ++ post)%string ->
  lower u = "yes" ->
  evaluate w client goal collected s
  = (Returned true, called s (review_request goal collected)).
Proof.
  intros Hr Ht Hu. unfold evaluate, bind, responses_create_on.
  rewrite Hr, Ht. simpl. unfold ret.
  fold (called s (review_request goal collected)).
  assert (E : str_in "yes" (lower (pre ++ u ++ post)) = true).
  { apply str_in_spec. exists (lower pre), (lower post).
    now rewrite !lower_app, Hu. }
  now rewrite E.
Qed.

(** X4. Any non-empty list of texts without newlines is what
    [get_clarifying_questions] returns when the service answers with these
    texts joined by newlines. *)
Theorem clarifying_questions_round_trip (topic : string) (s : State)
  (clarify : Response) (l : list string) :
  l <> [] ->
  Forall (fun q => count_char newline q = 0) l ->
  responses_create w (clock s) (clarify_request topic) = Some clarify ->
  output_text clarify 0 = inr (join newline l) ->
  get_clarifying_questions w client topic s
  = (Returned l, called s (clarify_request topic)).
Proof.
  intros Hl Hf Hr Ht. unfold get_clarifying_questions, bind, responses_create_on.
  rewrite Hr, Ht. simpl. unfold ret. now rewrite (split_join newline l Hl Hf).
Qed.

End ServiceCalls.

(** * What is kept from one run to the next *)

Section Caches.

Lemma str_list_eqb_refl (a : list string) : str_list_eqb a a = true.
Proof.
  induction a as [|x a IH]; simpl; [reflexivity|].
  now rewrite String.eqb_refl, IH.
Qed.

Lemma str_list_eqb_eq (a b : list string) : str_list_eqb a b = true -> a = b.
Proof.
  revert b. induction a as [|x a IH]; intros [|y b]; simpl; try discriminate.
  - reflexivity.
  - intros H. apply andb_true_iff in H as [Hx Hab].
    apply String.eqb_eq in Hx. now rewrite Hx, (IH b Hab).
Qed.

Lemma main_questions_hit (w : World) (client : OpenAI) (topic : string)
  (s : State) (cached : list string) :
  ss_clarify (session_state s) = Some cached ->
  ss_last_topic (session_state s) = Some topic ->
  main_questions w client topic s = (Returned cached, s).
Proof.
  intros Hc Hl. unfold main_questions, bind at 1, get_session. cbv zeta.
  now rewrite Hc, Hl, String.eqb_refl.
Qed.

Lemma main_questions_miss (w : World) (client : OpenAI) (topic : string)
  (s : State) :
  ss_clarify (session_state s) = None
  \/ ss_last_topic (session_state s) <> Some topic ->
  main_questions w client topic s
  = bind (get_clarifying_questions w client topic)
      (fun questions =>
         modify_session (set_clarify questions);;
         modify_session (set_last_topic topic);; ret questions) s.
Proof.
  intros H. unfold main_questions, bind at 1, get_session. cbv zeta.
  destruct (ss_clarify (session_state s)) as [cached|]; [|reflexivity].
  destruct (ss_last_topic (session_state s)) as [last|]; [|reflexivity].
  destruct (String.eqb last topic) eqn:E; [|reflexivity].
  apply String.eqb_eq in E. subst last.
  destruct H as [H | H]; [discriminate | now contradiction H].
Qed.

(** X5. The clarifying questions are cached by topic: with questions in the
    session and the same topic, [main] takes them from the session and calls
    nothing; with none or with another topic, the first thing it does is the
    request to the model; and whenever the questions have been obtained,
    asking again for the same topic, in any later run, gives the same
    questions without a call. *)
Theorem questions_are_cached_by_topic (w : World) (client : OpenAI)
  (topic : string) (s : State) :
  (forall cached,
      ss_clarify (session_state s) = Some cached ->
      ss_last_topic (session_state s) = Some topic ->
      main_questions w client topic s = (Returned cached, s))
  /\ (ss_clarify (session_state s) = None
      \/ ss_last_topic (session_state s) <> Some topic ->
      log (snd (main_questions w client topic s))
      = log s ++ [EvApiCall (clock s) (clarify_request topic)]
      /\ clock (snd (main_questions w client topic s)) = S (clock s))
  /\ (forall questions s1,
        main_questions w client topic s = (Returned questions, s1) ->
        forall w' client',
          main_questions w' client' topic s1 = (Returned questions, s1)).
Proof.
  split; [intros cached; apply main_questions_hit|]. split.
  - intros H. rewrite (main_questions_miss w client topic s H).
    unfold get_clarifying_questions, bind, responses_create_on.
    destruct (responses_create w (clock s) (clarify_request topic)) as [r|];
      [|split; reflexivity].
    destruct (output_text r 0); split; reflexivity.
  - intros questions s1 H w' client'.
    destruct (main_questions_returned w client topic s s1 questions H)
      as [(-> & Hc & Hl) | (-> & _)].
    + now apply main_questions_hit.
    + now apply main_questions_hit.
Qed.

Lemma main_plan_hit (w : World) (client : OpenAI) (topic : string)
  (answers : list string) (s : State) (plan : pyval) (clarify_id : string) :
  ss_goal_plan (session_state s) = Some plan ->
  ss_last_answers (session_state s) = Some answers ->
  ss_clarify_id (session_state s) = Some clarify_id ->
  main_plan w client topic answers s = (Returned (plan, clarify_id), s).
Proof.
  intros Hp Ha Hi. unfold main_plan, bind at 1, get_session. cbv zeta.
  now rewrite Hp, Ha, str_list_eqb_refl, Hi.
Qed.

(** The plan is either the cached one, with no call made, or the parsed
    answer to a fresh request, stored with the id of the response. *)
Lemma main_plan_returned (w : World) (client : OpenAI) (topic : string)
  (answers : list string) (s s3 : State) (r : pyval * string) :
  main_plan w client topic answers s = (Returned r, s3) ->
  (s3 = s /\ ss_goal_plan (session_state s) = Some (fst r)
   /\ ss_last_answers (session_state s) = Some answers
   /\ ss_clarify_id (session_state s) = Some (snd r))
  \/ (s3 = with_session (called s (plan_request topic answers None))
              (set_last_answers answers
                 (set_clarify_id (snd r)
                    (set_goal_plan (fst r) (session_state s))))
      /\ exists resp t,
           responses_create w (clock s) (plan_request topic answers None)
           = Some resp
           /\ output_text resp 0 = inr t
           /\ json_loads w t = Some (fst r)
           /\ snd r = id resp).
Proof.
  assert (F : (r0 <- get_goal_and_queries w client topic answers None;;
               modify_session (set_goal_plan (fst r0));;
               modify_session (set_clarify_id (snd r0));;
               modify_session (set_last_answers answers);; ret r0) s
              = (Returned r, s3) ->
              s3 = with_session (called s (plan_request topic answers None))
                     (set_last_answers answers
                        (set_clarify_id (snd r)
                           (set_goal_plan (fst r) (session_state s))))
              /\ exists resp t,
                   responses_create w (clock s) (plan_request topic answers None)
                   = Some resp
                   /\ output_text resp 0 = inr t
                   /\ json_loads w t = Some (fst r)
                   /\ snd r = id resp).
  { unfold get_goal_and_queries, bind, responses_create_on, loads.
    destruct (responses_create w (clock s) (plan_request topic answers None))
      as [resp|]; [|discriminate].
    destruct (output_text resp 0) as [e|t] eqn:Et; simpl; [discriminate|].
    destruct (json_loads w t) as [v|] eqn:Ev; simpl; [|discriminate].
    intros H. injection H as <- <-. split; [reflexivity|].
    exists resp, t. auto. }
  unfold main_plan, bind at 1, get_session. cbv zeta.
  destruct (ss_goal_plan (session_state s)) as [plan|];
    [|intros H; right; exact (F H)].
  destruct (ss_last_answers (session_state s)) as [last|];
    [|intros H; right; exact (F H)].
  destruct (str_list_eqb last answers) eqn:E; cbn [negb];
    [|intros H; right; exact (F H)].
  apply str_list_eqb_eq in E. subst last.
  destruct (ss_clarify_id (session_state s)) as [i|]; [|discriminate].
  intros H. injection H as <- <-. left. auto.
Qed.

(** X6. The plan is cached by the answers alone: whenever the plan has been
    obtained, asking again with the same answers, in any later run and for
    any topic, gives the same plan and response id without a call; and a
    request that is made passes no previous response id. *)
Theorem plan_is_cached_by_answers (w : World) (client : OpenAI)
  (topic : string) (answers : list string) (s s3 : State) (r : pyval * string) :
  main_plan w client topic answers s = (Returned r, s3) ->
  (forall w' client' topic',
      main_plan w' client' topic' answers s3 = (Returned r, s3))
  /\ (s3 = s
      \/ log s3 = log s ++ [EvApiCall (clock s) (plan_request topic answers None)]).
Proof.
  intros H.
  destruct (main_plan_returned w client topic answers s s3 r H)
    as [(-> & Hp & Ha & Hi) | (-> & _)].
  - split; [|now left]. intros w' client' topic'.
    destruct r as [plan i]. now apply main_plan_hit.
  - split; [|now right]. intros w' client' topic'.
    destruct r as [plan i]. now apply main_plan_hit.
Qed.

(** X7. A plan that parses as JSON but is not an object with the keys
    'goal' and 'queries' is stored in the session before the lookup fails:
    [main] raises TypeError or KeyError, the session holds the plan, and
    every later run with the same answers gets the same plan from the
    session without a call. *)
Theorem misshapen_plan_is_cached (w : World) (s s1 s3 : State) (k : string)
  (questions : list string) (r : pyval * string) (e : exn) :
  OPENAI_API_KEY w = Some k -> k <> EmptyString ->
  strip (ui_text w "topic") <> EmptyString ->
  main_questions w {| api_key := k |} (strip (ui_text w "topic"))
    (logged s (page_head k))
  = (Returned questions, s1) ->
  all_answered (typed_answers w 0 (length questions)) = true ->
  main_plan w {| api_key := k |} (strip (ui_text w "topic"))
    (typed_answers w 0 (length questions))
    (logged s1 (answer_inputs 0 questions))
  = (Returned r, s3) ->
  getitem (fst r) "goal" = inl e
  \/ (exists goal, getitem (fst r) "goal" = inr goal)
     /\ getitem (fst r) "queries" = inl e ->
  main w s = (Raised e, s3)
  /\ (e = TypeError \/ e = KeyError "goal" \/ e = KeyError "queries")
  /\ ss_goal_plan (session_state s3) = Some (fst r)
  /\ (forall w' client' topic',
        main_plan w' client' topic' (typed_answers w 0 (length questions)) s3
        = (Returned r, s3)).
Proof.
  intros Hk Hne Ht Hq Ha Hp He. split; [|split; [|split]].
  - rewrite main_unfold, Hk, (nonempty_key k Hne). cbv zeta.
    rewrite (nonempty_key _ Ht), Hq, Ha. cbn [negb]. rewrite Hp.
    destruct He as [He | [[goal Hg] He]].
    + now rewrite He.
    + now rewrite Hg, He.
  - unfold getitem in He.
    destruct (fst r) as [| | | | |d];
      try (destruct He as [He | [_ He]]; injection He as <-; now left).
    destruct He as [He | [_ He]].
    + destruct (assoc "goal" d); [discriminate|]. injection He as <-. auto.
    + destruct (assoc "queries" d); [discriminate|]. injection He as <-. auto.
  - destruct (main_plan_returned _ _ _ _ _ _ _ Hp)
      as [(-> & Hg & _) | (-> & _)]; [exact Hg | reflexivity].
  - intros w' client' topic'.
    destruct (main_plan_returned _ _ _ _ _ _ _ Hp)
      as [(-> & Hg & Hl & Hi) | (-> & _)].
    + destruct r as [plan i]. now apply main_plan_hit.
    + destruct r as [plan i]. now apply main_plan_hit.
Qed.

End Caches.

(** * More on the research loop *)

Section LoopAgain.

Lemma research_loop_skip_all (w : World) (client : OpenAI) (queries_to_run : pyval)
  (qs : list pyval) (c : list SearchResult) (s : State) :
  Forall (fun q => already_collected q c = true) qs ->
  research_loop w client queries_to_run qs c s = (Returned c, s).
Proof.
  induction 1 as [|q rest Hq Hrest IH]; simpl; [reflexivity|].
  unfold bind, research_turn. rewrite Hq. simpl. exact IH.
Qed.

Lemma research_loop_covers (w : World) (client : OpenAI) (queries_to_run : pyval)
  (qs : list pyval) :
  forall c s c' s',
    research_loop w client queries_to_run qs c s = (Returned c', s') ->
    (exists added, c' = c ++ added)
    /\ Forall (fun q => py_eq q q = true -> already_collected q c' = true) qs.
Proof.
  induction qs as [|q rest IH]; intros c s c' s'; simpl.
  - unfold ret. intros H. injection H as <- <-.
    split; [exists []; now rewrite app_nil_r | constructor].
  - destruct (research_turn_cases w client queries_to_run c q s)
      as [[Ha Ht] | [Ha [[e Ht] | [r [Hq Ht]]]]].
    + rewrite (bind_returned _ _ _ _ _ Ht). intros H.
      destruct (IH _ _ _ _ H) as [[added ->] Hall].
      split; [now exists added|]. constructor; [|exact Hall].
      intros _. now rewrite already_collected_app, Ha.
    + rewrite (bind_raised _ _ _ _ _ Ht). discriminate.
    + rewrite (bind_returned _ _ _ _ _ Ht). intros H.
      destruct (IH _ _ _ _ H) as [[added ->] Hall].
      split; [exists (r :: added); now rewrite <- app_assoc|].
      constructor; [|exact Hall].
      intros Hrefl. rewrite !already_collected_app. simpl.
      now rewrite Hq, Hrefl, orb_true_r.
Qed.

(** X8. The loop is idempotent: once it has returned over queries each of
    which equals itself under [==], running it again over the same queries
    from the list it returned, in any later run, makes no search and changes
    nothing. *)
Theorem research_loop_is_idempotent (w : World) (client : OpenAI)
  (queries_to_run : pyval) (qs : list pyval) (c c' : list SearchResult)
  (s s' : State) :
  research_loop w client queries_to_run qs c s = (Returned c', s') ->
  Forall (fun q => py_eq q q = true) qs ->
  forall w2 client2 queries_to_run2 s2,
    research_loop w2 client2 queries_to_run2 qs c' s2 = (Returned c', s2).
Proof.
  intros H Hrefl w2 client2 queries_to_run2 s2.
  apply research_loop_skip_all.
  destruct (research_loop_covers _ _ _ _ _ _ _ _ H) as [_ Hall].
  rewrite Forall_forall in *. intros q Hq. apply (Hall q Hq). now apply Hrefl.
Qed.

(** X9. The loop never halts the script and makes at most one model call
    per query it runs over. *)
Theorem research_loop_calls_are_bounded (w : World) (client : OpenAI)
  (queries_to_run : pyval) (qs : list pyval) :
  forall c s o s',
    research_loop w client queries_to_run qs c s = (o, s') ->
    o <> Stopped /\ clock s <= clock s' <= clock s + length qs.
Proof.
  induction qs as [|q rest IH]; intros c s o s'; simpl.
  - unfold ret. intros H. injection H as <- <-. split; [discriminate | lia].
  - destruct (research_turn_cases w client queries_to_run c q s)
      as [[Ha Ht] | [Ha [[e Ht] | [r [Hq Ht]]]]].
    + rewrite (bind_returned _ _ _ _ _ Ht). intros H.
      destruct (IH _ _ _ _ H) as [Ho Hc]. split; [exact Ho | lia].
    + rewrite (bind_raised _ _ _ _ _ Ht). intros H. injection H as <- <-.
      split; [discriminate | simpl; lia].
    + rewrite (bind_returned _ _ _ _ _ Ht). intros H.
      destruct (IH _ _ _ _ H) as [Ho Hc]. split; [exact Ho|].
      simpl in Hc. lia.
Qed.

Lemma py_iter_raises (v : pyval) (e : exn) : py_iter v = inl e -> e = TypeError.
Proof. destruct v; simpl; intros H; try discriminate; now injection H. Qed.

(** X10. When the research is to run and the value to iterate over is not
    iterable (the plan's queries, or the follow-up queries once something is
    collected, being null, a boolean or a number), [main] raises TypeError
    before any search, with 'research_started' set to True; and from the
    session it leaves, every later run that gets to the research with the
    same plan queries raises TypeError again, changing nothing. *)
Theorem unusable_queries_block_the_research (w : World) (client : OpenAI)
  (goal queries : pyval) (clarify_id : string) (s : State) (e : exn) :
  ui_button w "run_research" = true
  \/ ss_research_started (session_state s) = Some true ->
  py_iter (queries_to_run_of s queries) = inl e ->
  main_research w client goal queries clarify_id s
  = (Raised e,
     with_session (logged s [EvButton "Run Research" "run_research"])
       (set_research_started true (session_state s)))
  /\ e = TypeError
  /\ (forall w' client' goal' clarify_id' s2,
        session_state s2 = set_research_started true (session_state s) ->
        main_research w' client' goal' queries clarify_id' s2
        = (Raised TypeError,
           with_session (logged s2 [EvButton "Run Research" "run_research"])
             (session_state s2))).
Proof.
  intros Hgo Hi.
  assert (He : e = TypeError) by exact (py_iter_raises _ _ Hi). subst e.
  split; [|split; [reflexivity|]].
  - rewrite main_research_unfold. cbv zeta.
    fold (queries_to_run_of s queries). rewrite Hi.
    destruct Hgo as [-> | ->]; [reflexivity | now rewrite orb_true_r].
  - intros w' client' goal' clarify_id' s2 Hs2.
    rewrite main_research_unfold. cbv zeta.
    fold (queries_to_run_of s2 queries).
    assert (Hq : queries_to_run_of s2 queries = queries_to_run_of s queries).
    { unfold queries_to_run_of, collected_of. now rewrite Hs2. }
    rewrite Hq, Hi, Hs2. simpl ss_research_started. rewrite orb_true_r.
    reflexivity.
Qed.

Lemma typed_answers_with_button (w : World) (pressed : bool) (n : nat) :
  forall i, typed_answers (with_button w pressed) i n = typed_answers w i n.
Proof.
  induction n as [|n IH]; intros i; simpl; [reflexivity | now rewrite IH].
Qed.

(** X11. Once 'research_started' is True in the session, the button does
    not matter: a run of [main] is the same whether it is clicked or not. *)
Theorem research_continues_without_click (w : World) (pressed : bool) (s : State) :
  ss_research_started (session_state s) = Some true ->
  main (with_button w pressed) s = main w s.
Proof.
  intros Hst.
  rewrite (main_unfold (with_button w pressed)), (main_unfold w).
  change (OPENAI_API_KEY (with_button w pressed)) with (OPENAI_API_KEY w).
  change (ui_text (with_button w pressed)) with (ui_text w).
  destruct (OPENAI_API_KEY w) as [k|]; [|reflexivity].
  destruct (is_empty_str k); [reflexivity|]. cbv zeta.
  destruct (is_empty_str (strip (ui_text w "topic"))); [reflexivity|].
  change (main_questions (with_button w pressed)) with (main_questions w).
  pose proof (keeps_main_questions w
                (fun ss => ss_research_started ss = Some true)
                {| api_key := k |} (strip (ui_text w "topic"))
                (fun _ _ H => H) (fun _ _ H => H)
                (logged s (page_head k)) Hst) as K1.
  destruct (main_questions w _ _ _) as [[questions|e|] s1]; try reflexivity.
  simpl in K1. unfold on_session in K1.
  rewrite typed_answers_with_button.
  destruct (negb _); [reflexivity|].
  change (main_plan (with_button w pressed)) with (main_plan w).
  pose proof (keeps_main_plan w
                (fun ss => ss_research_started ss = Some true)
                {| api_key := k |} (strip (ui_text w "topic"))
                (typed_answers w 0 (length questions))
                (fun _ _ H => H) (fun _ _ H => H) (fun _ _ H => H)
                (logged s1 (answer_inputs 0 questions)) K1) as K3.
  destruct (main_plan w _ _ _ _) as [[r|e|] s3]; try reflexivity.
  simpl in K3. unfold on_session in K3.
  destruct (getitem (fst r) "goal") as [e|goal]; [reflexivity|].
  destruct (getitem (fst r) "queries") as [e|queries]; [reflexivity|].
  rewrite !main_research_unfold. cbv zeta.
  change (session_state (logged s3 (plan_shown goal queries)))
    with (session_state s3).
  rewrite K3, !orb_true_r.
  change (research_loop (with_button w pressed)) with (research_loop w).
  change (main_evaluate (with_button w pressed)) with (main_evaluate w).
  reflexivity.
Qed.

End LoopAgain.

(** * Halting *)

Section Halting.

Variable w : World.

Lemma ns_bind {A B : Type} (m : M A) (k : A -> M B) :
  never_stops m -> (forall a, never_stops (k a)) -> never_stops (bind m k).
Proof. apply spec_bind. Qed.

Lemma ns_ret {A : Type} (a : A) : never_stops (ret a).
Proof. apply spec_ret. Qed.

Lemma ns_raise {A : Type} (e : exn) : never_stops (@raise A e).
Proof. apply spec_raise. auto. Qed.

Lemma ns_lift {A : Type} (r : exn + A) : never_stops (lift r).
Proof. apply spec_lift. auto. Qed.

Lemma ns_emit (e : Event) : never_stops (emit e).
Proof. intros s _. exact I. Qed.

Lemma ns_get_session : never_stops get_session.
Proof. intros s _. exact I. Qed.

Lemma ns_modify (f : SessionState -> SessionState) : never_stops (modify_session f).
Proof. intros s _. exact I. Qed.

Lemma ns_responses_create (client : OpenAI) (r : Request) :
  never_stops (responses_create_on w client r).
Proof.
  intros s _. unfold responses_create_on.
  destruct (responses_create w (clock s) r); exact I.
Qed.

Lemma ns_run {A : Type} (m : M A) (s : State) :
  never_stops m -> fst (m s) <> Stopped.
Proof. intros H E. specialize (H s I). now rewrite E in H. Qed.

End Halting.

Ltac ns_step :=
  first
    [ apply ns_ret | apply ns_raise | apply ns_lift | apply ns_emit
    | apply ns_get_session | apply ns_modify | apply ns_responses_create
    | apply ns_bind; [|intros ?]
    | match goal with
      | |- never_stops (if ?b then _ else _) => destruct b
      | |- never_stops (match ?x with _ => _ end) => destruct x
      end ].

Ltac ns_auto := cbv zeta; repeat ns_step.

Section HaltingScript.

Variable w : World.

Lemma ns_main_questions (client : OpenAI) (topic : string) :
  never_stops (main_questions w client topic).
Proof. unfold main_questions, get_clarifying_questions. ns_auto. Qed.

Lemma ns_main_plan (client : OpenAI) (topic : string) (answers : list string) :
  never_stops (main_plan w client topic answers).
Proof. unfold main_plan, get_goal_and_queries. ns_auto. Qed.

Lemma ns_research_loop (client : OpenAI) (queries_to_run : pyval)
  (qs : list pyval) :
  forall c, never_stops (research_loop w client queries_to_run qs c).
Proof.
  induction qs as [|q rest IH]; intros c; simpl; [apply ns_ret|].
  apply ns_bind; [|intros c'; apply IH].
  unfold research_turn, st_spinner, run_search. ns_auto.
Qed.

Lemma ns_main_research (client : OpenAI) (goal queries : pyval)
  (clarify_id : string) :
  never_stops (main_research w client goal queries clarify_id).
Proof.
  unfold main_research, st_button.
  apply ns_bind; [ns_auto | intros pressed].
  apply ns_bind; [apply ns_get_session | intros ss].
  destruct (_ || _); [|apply ns_ret].
  apply ns_bind; [apply ns_modify | intros _]. cbv zeta.
  apply ns_bind; [apply ns_lift | intros qs].
  apply ns_bind; [apply ns_research_loop | intros c].
  unfold main_evaluate, evaluate, synthesize, st_success, st_markdown,
    st_warning.
  ns_auto.
Qed.

(** X12. [main] ends in [st.stop()] exactly when OPENAI_API_KEY is unset or
    empty: with a key, whatever the model answers and whatever is typed, a
    run returns or raises, and never halts. *)
Theorem main_stops_only_without_key (s : State) :
  fst (main w s) = Stopped
  <-> OPENAI_API_KEY w = None \/ OPENAI_API_KEY w = Some EmptyString.
Proof.
  split.
  - intros H. destruct (OPENAI_API_KEY w) as [[|c k]|] eqn:Ek; auto.
    exfalso. revert H. rewrite main_unfold, Ek. cbn [is_empty_str]. cbv zeta.
    destruct (is_empty_str _); [discriminate|].
    pose proof (ns_run _ (logged s (page_head (String c k)))
                  (ns_main_questions {| api_key := String c k |}
                     (strip (ui_text w "topic")))) as N1.
    destruct (main_questions w _ _ _) as [[questions|e|] s1];
      [|discriminate|now contradiction N1].
    destruct (negb _); [discriminate|].
    pose proof (ns_run _ (logged s1 (answer_inputs 0 questions))
                  (ns_main_plan {| api_key := String c k |}
                     (strip (ui_text w "topic"))
                     (typed_answers w 0 (length questions)))) as N3.
    destruct (main_plan w _ _ _ _) as [[r|e|] s3];
      [|discriminate|now contradiction N3].
    destruct (getitem (fst r) "goal") as [e|goal]; [discriminate|].
    destruct (getitem (fst r) "queries") as [e|queries]; [discriminate|].
    apply ns_run. apply ns_main_research.
  - intros H. now rewrite (main_halts w s H).
Qed.

End HaltingScript.

(** * The id of the plan's response *)

Section PlanId.

Variable w : World.

Lemma id_bind {A B : Type} (m : M A) (k : A -> M B) :
  id_spec m -> (forall a, id_spec (k a)) -> id_spec (bind m k).
Proof. apply spec_bind. Qed.

Lemma id_ret {A : Type} (a : A) : id_spec (ret a).
Proof. apply spec_ret. Qed.

Lemma id_lift {A : Type} (r : exn + A) :
  (forall e, r = inl e -> e <> KeyError "clarify_id") -> id_spec (lift r).
Proof. intros H. apply spec_lift. intros e He s Hs. split; auto. Qed.

Lemma id_emit (e : Event) : id_spec (emit e).
Proof. intros s H. exact H. Qed.

Lemma id_get_session : id_spec get_session.
Proof. intros s H. exact H. Qed.

Lemma id_modify (f : SessionState -> SessionState) :
  (forall ss, plan_has_id ss -> plan_has_id (f ss)) ->
  id_spec (modify_session f).
Proof. intros Hf s H. exact (Hf _ H). Qed.

Lemma id_responses_create (client : OpenAI) (r : Request) :
  id_spec (responses_create_on w client r).
Proof.
  intros s H. unfold responses_create_on.
  destruct (responses_create w (clock s) r); simpl; [exact H|].
  split; [exact H | discriminate].
Qed.

Lemma id_get_answers (questions : list string) : id_spec (get_answers w questions).
Proof.
  intros s H. unfold get_answers. rewrite get_answers_from_spec. exact H.
Qed.

Lemma output_at_exn (resp : Response) (i : nat) (e : exn) :
  output_at resp i = inl e -> e <> KeyError "clarify_id".
Proof.
  unfold output_at. destruct (nth_error _ _); intros H; [discriminate|].
  injection H as <-. discriminate.
Qed.

Lemma output_text_exn (resp : Response) (i : nat) (e : exn) :
  output_text resp i = inl e -> e <> KeyError "clarify_id".
Proof.
  unfold output_text, output_at, content0_text.
  destruct (nth_error (output resp) i) as [it|];
    [|intros H; injection H as <-; discriminate].
  destruct (content it) as [| |parts];
    [intros H; injection H as <-; discriminate
    |intros H; injection H as <-; discriminate|].
  destruct (nth_error parts 0) as [part|];
    [|intros H; injection H as <-; discriminate].
  destruct (text part); intros H; [discriminate|].
  injection H as <-. discriminate.
Qed.

Lemma loads_exn (t : string) (e : exn) :
  loads w t = inl e -> e <> KeyError "clarify_id".
Proof.
  unfold loads. destruct (json_loads w t); intros H; [discriminate|].
  injection H as <-. discriminate.
Qed.

Lemma getitem_exn (v : pyval) (k : string) :
  k <> "clarify_id" ->
  forall e, getitem v k = inl e -> e <> KeyError "clarify_id".
Proof.
  intros Hk e. unfold getitem.
  destruct v as [| | | | |d];
    try (intros H; injection H as <-; discriminate).
  destruct (assoc k d); intros H; [discriminate|].
  injection H as <-. intros E. injection E as E. now apply Hk.
Qed.

Lemma py_iter_exn (v : pyval) (e : exn) :
  py_iter v = inl e -> e <> KeyError "clarify_id".
Proof.
  destruct v; simpl; intros H; try discriminate;
    injection H as <-; discriminate.
Qed.

End PlanId.

Ltac id_step :=
  first
    [ apply id_ret | apply id_emit | apply id_get_session
    | apply id_responses_create | apply id_get_answers
    | apply id_lift;
      first [ apply output_text_exn | apply output_at_exn | apply loads_exn
            | apply py_iter_exn | apply getitem_exn; discriminate ]
    | apply id_modify; intros ? ?;
      first [ assumption | unfold plan_has_id; simpl; right; discriminate ]
    | apply id_bind; [|intros ?]
    | match goal with
      | |- id_spec (if ?b then _ else _) => destruct b
      | |- id_spec (match ?x with _ => _ end) => destruct x
      end ].

Ltac id_auto := cbv zeta; repeat id_step.

Section PlanIdScript.

Variable w : World.

Lemma id_main_questions (client : OpenAI) (topic : string) :
  id_spec (main_questions w client topic).
Proof. unfold main_questions, get_clarifying_questions. id_auto. Qed.

Lemma id_main_plan (client : OpenAI) (topic : string) (answers : list string) :
  id_spec (main_plan w client topic answers).
Proof.
  assert (F : id_spec
    (r <- get_goal_and_queries w client topic answers None;;
     modify_session (set_goal_plan (fst r));;
     modify_session (set_clarify_id (snd r));;
     modify_session (set_last_answers answers);; ret r)).
  { apply id_bind; [unfold get_goal_and_queries; id_auto | intros r].
    intros s _. simpl. right. discriminate. }
  apply spec_run. intros s o s' HP.
  unfold main_plan, bind at 1, get_session. cbv zeta.
  pose proof (F s HP) as K.
  destruct (ss_goal_plan (session_state s)) as [plan|] eqn:Ep;
    [|intros H; now rewrite H in K].
  destruct (ss_last_answers (session_state s)) as [last|];
    [|intros H; now rewrite H in K].
  destruct (negb _); [intros H; now rewrite H in K|].
  destruct (ss_clarify_id (session_state s)) as [i|] eqn:Ei.
  - intros H. injection H as <- <-. exact HP.
  - exfalso. destruct HP as [HP | HP]; congruence.
Qed.

Lemma id_research_loop (client : OpenAI) (queries_to_run : pyval)
  (qs : list pyval) :
  forall c, id_spec (research_loop w client queries_to_run qs c).
Proof.
  induction qs as [|q rest IH]; intros c; simpl; [apply id_ret|].
  apply id_bind; [|intros c'; apply IH].
  unfold research_turn, st_spinner, run_search. id_auto.
Qed.

Lemma id_main : id_spec (main w).
Proof.
  unfold main, st_title, st_write, st_info, st_subheader.
  apply id_bind; [id_auto | intros _].
  apply id_bind; [id_auto | intros _].
  apply id_bind.
  { unfold get_openai_client, st_error. cbv zeta.
    destruct (OPENAI_API_KEY w) as [k|].
    - destruct (is_empty_str k).
      + apply id_bind; [apply id_emit | intros _]. intros s H. exact H.
      + id_auto.
    - apply id_bind; [apply id_emit | intros _]. intros s H. exact H. }
  intros client.
  apply id_bind; [unfold get_topic, st_text_input; id_auto | intros topic].
  destruct (is_empty_str topic); [id_auto|].
  apply id_bind; [apply id_main_questions | intros questions].
  apply id_bind; [apply id_get_answers | intros answers].
  destruct (negb (all_answered answers)); [id_auto|].
  apply id_bind; [apply id_main_plan | intros r]. cbv zeta.
  apply id_bind; [id_auto | intros goal].
  apply id_bind; [id_auto | intros queries].
  apply id_bind; [id_auto | intros _].
  apply id_bind; [id_auto | intros _].
  apply id_bind; [id_auto | intros _].
  apply id_bind; [id_auto | intros _].
  unfold main_research, st_button.
  apply id_bind; [id_auto | intros pressed].
  apply id_bind; [apply id_get_session | intros ss].
  destruct (_ || _); [|apply id_ret].
  apply id_bind; [id_auto | intros _]. cbv zeta.
  apply id_bind; [id_auto | intros qs].
  apply id_bind; [apply id_research_loop | intros c].
  unfold main_evaluate, evaluate, synthesize, st_success, st_markdown,
    st_warning.
  id_auto.
Qed.

End PlanIdScript.

(** X13. In a session started afresh, after any sequence of runs, a stored
    plan always comes with the id of its response; so the lookup of
    'clarify_id' in the session (line 139) never fails: no run of [main]
    raises its KeyError. *)
Theorem clarify_id_lookup_never_fails (ws : list World) :
  plan_has_id (session_state (run_session ws))
  /\ (forall w, fst (main w (run_session ws)) <> Raised (KeyError "clarify_id")).
Proof.
  assert (G : forall ws0 s, plan_has_id (session_state s) ->
                plan_has_id
                  (session_state (fold_left (fun s w => snd (main w s)) ws0 s))).
  { induction ws0 as [|w ws0 IH]; intros s H; simpl; [exact H|].
    apply IH. pose proof (id_main w s H) as K.
    destruct (fst (main w s)); simpl in K; [exact K | apply K | exact K]. }
  assert (R : plan_has_id (session_state (run_session ws))).
  { apply G. now left. }
  split; [exact R|].
  intros w E. pose proof (id_main w _ R) as K. rewrite E in K.
  destruct K as [_ K]. now apply K.
Qed.

(** * What a failed search leaves behind *)

Section Progress.

(** X14. During the loop the 'collected' list of the session only grows,
    by one result per successful search, also when the loop is cut short by
    an exception: what was collected before the failing search stays in
    the session, and the failing call is the only one that added nothing. *)
Theorem research_progress_is_kept (w : World) (client : OpenAI)
  (queries_to_run : pyval) (qs : list pyval) :
  forall s o s',
    research_loop w client queries_to_run qs (collected_of s) s = (o, s') ->
    exists added,
      collected_of s' = collected_of s ++ added
      /\ clock s' = clock s + length added
                    + match o with Raised _ => 1 | _ => 0 end
      /\ (forall c', o = Returned c' -> c' = collected_of s').
Proof.
  induction qs as [|q rest IH]; intros s o s'; simpl.
  - unfold ret. intros H. injection H as <- <-. exists [].
    rewrite app_nil_r. repeat split; [simpl; lia|].
    intros c' H. now injection H.
  - destruct (research_turn_cases w client queries_to_run (collected_of s) q s)
      as [[Ha Ht] | [Ha [[e Ht] | [r [Hq Ht]]]]].
    + rewrite (bind_returned _ _ _ _ _ Ht). apply IH.
    + rewrite (bind_raised _ _ _ _ _ Ht). intros H. injection H as <- <-.
      exists []. rewrite app_nil_r. repeat split; [simpl; lia | discriminate].
    + rewrite (bind_returned _ _ _ _ _ Ht).
      match goal with
      | |- research_loop _ _ _ _ _ ?s2 = _ -> _ =>
          change (collected_of s ++ [r]) with (collected_of s2) at 1;
          intros H; destruct (IH s2 o s' H) as (added & Hc & Hk & Hr)
      end.
      exists (r :: added). split; [|split; [|exact Hr]].
      * rewrite Hc.
        cbn [collected_of session_state with_session session_collected
             ss_collected set_queries set_collected].
        now rewrite <- app_assoc.
      * rewrite Hk. simpl. lia.
Qed.

End Progress.

(** * Empty topic and empty answers *)

Section Inputless.

Variable w : World.
Variable base : list Event.

Lemma inputless_logged (s : State) (evs : list Event) :
  Forall not_text_input evs -> inputless base s -> inputless base (logged s evs).
Proof.
  intros Hn (evs0 & Hl & Hq). exists (evs0 ++ evs). simpl.
  rewrite Hl, app_assoc. split; [reflexivity|]. now apply Forall_app.
Qed.

Lemma inputless_called (s : State) (r : Request) :
  inputless base s -> inputless base (called s r).
Proof.
  intros (evs0 & Hl & Hq). exists (evs0 ++ [EvApiCall (clock s) r]). simpl.
  rewrite Hl, app_assoc. split; [reflexivity|].
  apply Forall_app. split; [exact Hq|]. now constructor.
Qed.

Lemma il_bind {A B : Type} (m : M A) (k : A -> M B) :
  inputless_spec base m -> (forall a, inputless_spec base (k a)) ->
  inputless_spec base (bind m k).
Proof. apply spec_bind. Qed.

Lemma il_ret {A : Type} (a : A) : inputless_spec base (ret a).
Proof. apply spec_ret. Qed.

Lemma il_raise {A : Type} (e : exn) : inputless_spec base (@raise A e).
Proof. apply spec_raise. auto. Qed.

Lemma il_lift {A : Type} (r : exn + A) : inputless_spec base (lift r).
Proof. apply spec_lift. auto. Qed.

Lemma il_emit (e : Event) : not_text_input e -> inputless_spec base (emit e).
Proof.
  intros Hq s H. simpl. apply (inputless_logged s [e]); [|exact H].
  now constructor.
Qed.

Lemma il_get_session : inputless_spec base get_session.
Proof. intros s H. exact H. Qed.

Lemma il_modify (f : SessionState -> SessionState) :
  inputless_spec base (modify_session f).
Proof. intros s H. exact H. Qed.

Lemma il_responses_create (client : OpenAI) (r : Request) :
  inputless_spec base (responses_create_on w client r).
Proof.
  intros s H. unfold responses_create_on. fold (called s r).
  destruct (responses_create w (clock s) r); simpl; now apply inputless_called.
Qed.

End Inputless.

Ltac il_step :=
  first
    [ apply il_ret | apply il_raise | apply il_lift
    | apply il_emit; exact I | apply il_get_session | apply il_modify
    | apply il_responses_create
    | apply il_bind; [|intros ?]
    | match goal with
      | |- inputless_spec _ (if ?b then _ else _) => destruct b
      | |- inputless_spec _ (match ?x with _ => _ end) => destruct x
      end ].

Ltac il_auto := cbv zeta; repeat il_step.

Section EmptyInputs.

Variable w : World.

Lemma il_main_plan (base : list Event) (client : OpenAI) (topic : string)
  (answers : list string) :
  inputless_spec base (main_plan w client topic answers).
Proof. unfold main_plan, get_goal_and_queries. il_auto. Qed.

Lemma il_research_loop (base : list Event) (client : OpenAI)
  (queries_to_run : pyval) (qs : list pyval) :
  forall c, inputless_spec base (research_loop w client queries_to_run qs c).
Proof.
  induction qs as [|q rest IH]; intros c; simpl; [apply il_ret|].
  apply il_bind; [|intros c'; apply IH].
  unfold research_turn, st_spinner, run_search. il_auto.
Qed.

Lemma il_main_research (base : list Event) (client : OpenAI)
  (goal queries : pyval) (clarify_id : string) :
  inputless_spec base (main_research w client goal queries clarify_id).
Proof.
  unfold main_research, st_button.
  apply il_bind; [il_auto | intros pressed].
  apply il_bind; [apply il_get_session | intros ss].
  destruct (_ || _); [|apply il_ret].
  apply il_bind; [apply il_modify | intros _]. cbv zeta.
  apply il_bind; [apply il_lift | intros qs].
  apply il_bind; [apply il_research_loop | intros c].
  unfold main_evaluate, evaluate, synthesize, st_success, st_markdown,
    st_warning.
  il_auto.
Qed.

(** What [main] does once every answer is given renders no text input. *)
Lemma main_tail_inputless (client : OpenAI) (topic : string)
  (answers : list string) (s2 s' : State) (o : Outcome unit) :
  match main_plan w client topic answers s2 with
  | (Returned r, s3) =>
      match getitem (fst r) "goal" with
      | inl e => (Raised e, s3)
      | inr goal =>
          match getitem (fst r) "queries" with
          | inl e => (Raised e, s3)
          | inr queries =>
              main_research w client goal queries (snd r)
                (logged s3 (plan_shown goal queries))
          end
      end
  | (Raised e, s3) => (Raised e, s3)
  | (Stopped, s3) => (Stopped, s3)
  end = (o, s') ->
  inputless (log s2) s'.
Proof.
  assert (I2 : inputless (log s2) s2).
  { exists []. rewrite app_nil_r. split; [reflexivity | constructor]. }
  pose proof (il_main_plan (log s2) client topic answers s2 I2) as K.
  destruct (main_plan w client topic answers s2) as [[r|e|] s3]; simpl in K.
  - destruct (getitem (fst r) "goal") as [e|goal];
      [intros H; injection H as <- <-; exact K|].
    destruct (getitem (fst r) "queries") as [e|queries];
      [intros H; injection H as <- <-; exact K|].
    assert (I4 : inputless (log s2) (logged s3 (plan_shown goal queries))).
    { apply inputless_logged; [|exact K]. repeat constructor. }
    pose proof (il_main_research (log s2) client goal queries (snd r) _ I4) as K4.
    intros H. rewrite H in K4. now destruct o.
  - intros H. injection H as <- <-. exact K.
  - intros H. injection H as <- <-. exact K.
Qed.

Lemma main_questions_log (client : OpenAI) (topic : string) (s : State) :
  exists l,
    log (snd (main_questions w client topic s)) = log s ++ l
    /\ (l = [] \/ l = [EvApiCall (clock s) (clarify_request topic)]).
Proof.
  assert (F : exists l,
    log (snd ((questions <- get_clarifying_questions w client topic;;
               modify_session (set_clarify questions);;
               modify_session (set_last_topic topic);; ret questions) s))
    = log s ++ l
    /\ (l = [] \/ l = [EvApiCall (clock s) (clarify_request topic)])).
  { exists [EvApiCall (clock s) (clarify_request topic)]. split; [|now right].
    unfold get_clarifying_questions, bind, responses_create_on.
    destruct (responses_create w (clock s) (clarify_request topic)) as [r|];
      [|reflexivity].
    destruct (output_text r 0); reflexivity. }
  unfold main_questions, bind at 1, get_session. cbv zeta.
  destruct (ss_clarify (session_state s)) as [cached|]; [|exact F].
  destruct (ss_last_topic (session_state s)) as [last|]; [|exact F].
  destruct (negb _); [exact F|].
  exists []. rewrite app_nil_r. split; [reflexivity | now left].
Qed.

Lemma answer_inputs_in (questions : list string) :
  forall j q i,
    In (EvTextInput q (answer_key i)) (answer_inputs j questions) ->
    exists d, i = j + d /\ d < length questions.
Proof.
  induction questions as [|x rest IH]; intros j q i; simpl; [contradiction|].
  intros [H | H].
  - injection H as _ H. apply str_of_nat_inj in H. exists 0. split; lia.
  - destruct (IH _ _ _ H) as (d & -> & Hd). exists (S d). split; lia.
Qed.

Lemma answer_inputs_are_inputs (questions : list string) :
  forall j n r, ~ In (EvApiCall n r) (answer_inputs j questions).
Proof.
  induction questions as [|x rest IH]; intros j n r; simpl; [tauto|].
  intros [H | H]; [discriminate | exact (IH _ _ _ H)].
Qed.

Lemma page_head_has_no_answer (k q : string) (i : nat) :
  ~ In (EvTextInput q (answer_key i)) (page_head k).
Proof.
  simpl. intros [H | [H | [H | [H | []]]]]; discriminate H.
Qed.

(** A run that renders the topic input has a key. *)
Lemma main_reads_topic (s s' : State) (o : Outcome unit) (evs : list Event) :
  main w s = (o, s') -> log s' = log s ++ evs ->
  In (EvTextInput "Research topic:" "topic") evs ->
  exists k, OPENAI_API_KEY w = Some k /\ k <> EmptyString.
Proof.
  intros Hm Hl Hin.
  destruct (OPENAI_API_KEY w) as [[|c k]|] eqn:Ek.
  - exfalso. rewrite (main_halts w s (or_intror Ek)) in Hm.
    injection Hm as <- <-. simpl in Hl. apply app_inv_head in Hl. subst evs.
    simpl in Hin. destruct Hin as [H | [H | [H | []]]]; discriminate H.
  - exists (String c k). split; [reflexivity | discriminate].
  - exfalso. rewrite (main_halts w s (or_introl Ek)) in Hm.
    injection Hm as <- <-. simpl in Hl. apply app_inv_head in Hl. subst evs.
    simpl in Hin. destruct Hin as [H | [H | [H | []]]]; discriminate H.
Qed.

Lemma empty_topic_run (s s' : State) (o : Outcome unit) (evs : list Event) :
  main w s = (o, s') -> log s' = log s ++ evs ->
  In (EvTextInput "Research topic:" "topic") evs ->
  strip (ui_text w "topic") = EmptyString ->
  o = Returned tt
  /\ (exists k, evs = page_head k ++ [EvInfo "Enter a research topic to begin."])
  /\ clock s' = clock s
  /\ session_state s' = session_state s.
Proof.
  intros Hm Hl Hin Ht.
  destruct (main_reads_topic s s' o evs Hm Hl Hin) as (k & Hk & Hne).
  rewrite (main_empty_topic w s k Hk Hne Ht) in Hm. injection Hm as <- <-.
  simpl in Hl. apply app_inv_head in Hl. subst evs.
  split; [reflexivity|]. split; [now exists k|]. split; reflexivity.
Qed.

(** C3. Take any run of [main].  If it reads the topic and the topic,
    stripped, is empty, it shows the prompt to enter a topic and returns:
    it has rendered only the page head and that prompt, made no model call
    and left the session as it was.  If the topic is not empty and some
    answer input it rendered holds an empty answer, it shows the message
    asking to answer all questions as the last thing and returns: the only
    model call it can have made is the request for the clarifying questions,
    so neither the plan nor any search is requested, and the session is
    unchanged on every key but 'clarify' and 'last_topic'. *)
Theorem empty_inputs_return_early (s s' : State) (o : Outcome unit)
  (evs : list Event) :
  main w s = (o, s') -> log s' = log s ++ evs ->
  (In (EvTextInput "Research topic:" "topic") evs ->
   strip (ui_text w "topic") = EmptyString ->
   o = Returned tt
   /\ (exists k, evs = page_head k ++ [EvInfo "Enter a research topic to begin."])
   /\ clock s' = clock s
   /\ session_state s' = session_state s)
  /\ (strip (ui_text w "topic") <> EmptyString ->
      (exists i q, In (EvTextInput q (answer_key i)) evs
                   /\ ui_text w (answer_key i) = EmptyString) ->
      o = Returned tt
      /\ (exists shown,
            evs = shown ++ [EvInfo "Please answer all clarifying questions."])
      /\ (forall n r, In (EvApiCall n r) evs ->
            r = clarify_request (strip (ui_text w "topic")))
      /\ same_but_questions (session_state s') (session_state s)).
Proof.
  intros Hm Hl. split; [now apply empty_topic_run|].
  intros Ht (i & q & Hin & He).
  destruct (OPENAI_API_KEY w) as [[|c k0]|] eqn:Ek.
  - exfalso. rewrite (main_halts w s (or_intror Ek)) in Hm.
    injection Hm as <- <-. simpl in Hl. apply app_inv_head in Hl. subst evs.
    simpl in Hin. destruct Hin as [H | [H | [H | []]]]; discriminate H.
  - set (k := String c k0) in *.
    rewrite main_unfold, Ek in Hm. cbn [is_empty_str k] in Hm. cbv zeta in Hm.
    rewrite (nonempty_key _ Ht) in Hm.
    destruct (main_questions_log {| api_key := k |} (strip (ui_text w "topic"))
                (logged s (page_head k))) as (l & Hlq & Hl01).
    pose proof (main_questions_returned w {| api_key := k |}
                  (strip (ui_text w "topic")) (logged s (page_head k))) as Hret.
    destruct (main_questions w {| api_key := k |} (strip (ui_text w "topic"))
                (logged s (page_head k))) as [[questions|e|] s1];
      simpl in Hlq.
    + specialize (Hret s1 questions eq_refl).
      destruct (all_answered (typed_answers w 0 (length questions))) eqn:Ea;
        cbn [negb] in Hm.
      * exfalso.
        destruct (main_tail_inputless _ _ _ _ _ _ Hm) as (rest & Hrest & Hnti).
        simpl in Hrest. rewrite Hlq, Hl in Hrest.
        rewrite <- !app_assoc in Hrest. apply app_inv_head in Hrest.
        subst evs.
        apply in_app_or in Hin as [Hin | Hin];
          [exact (page_head_has_no_answer _ _ _ Hin)|].
        apply in_app_or in Hin as [Hin | Hin].
        { destruct Hl01 as [-> | ->]; simpl in Hin;
            [contradiction | destruct Hin as [H | []]; discriminate H]. }
        apply in_app_or in Hin as [Hin | Hin].
        { destruct (answer_inputs_in _ _ _ _ Hin) as (d & -> & Hd).
          rewrite (all_answered_typed w (length questions) 0 d Hd He) in Ea.
          discriminate Ea. }
        rewrite Forall_forall in Hnti. exact (Hnti _ Hin).
      * injection Hm as <- <-. simpl in Hl. rewrite Hlq in Hl.
        rewrite <- !app_assoc in Hl. apply app_inv_head in Hl. subst evs.
        split; [reflexivity|]. split; [|split].
        -- exists (page_head k ++ l ++ answer_inputs 0 questions).
           now rewrite <- !app_assoc.
        -- intros n r Hc.
           apply in_app_or in Hc as [Hc | Hc].
           { simpl in Hc.
             destruct Hc as [H | [H | [H | [H | []]]]]; discriminate H. }
           apply in_app_or in Hc as [Hc | Hc].
           { destruct Hl01 as [-> | ->]; simpl in Hc; [contradiction|].
             destruct Hc as [H | []]. now injection H as _ <-. }
           apply in_app_or in Hc as [Hc | Hc].
           { now apply answer_inputs_are_inputs in Hc. }
           simpl in Hc. destruct Hc as [H | []]. discriminate H.
        -- simpl. destruct Hret as [(-> & _) | (-> & _)]; repeat split.
    + exfalso. injection Hm as <- <-. rewrite Hlq in Hl. simpl in Hl.
      rewrite <- !app_assoc in Hl. apply app_inv_head in Hl. subst evs.
      apply in_app_or in Hin as [Hin | Hin];
        [exact (page_head_has_no_answer _ _ _ Hin)|].
      destruct Hl01 as [-> | ->]; simpl in Hin;
        [contradiction | destruct Hin as [H | []]; discriminate H].
    + exfalso. injection Hm as <- <-. rewrite Hlq in Hl. simpl in Hl.
      rewrite <- !app_assoc in Hl. apply app_inv_head in Hl. subst evs.
      apply in_app_or in Hin as [Hin | Hin];
        [exact (page_head_has_no_answer _ _ _ Hin)|].
      destruct Hl01 as [-> | ->]; simpl in Hin;
        [contradiction | destruct Hin as [H | []]; discriminate H].
  - exfalso. rewrite (main_halts w s (or_introl Ek)) in Hm.
    injection Hm as <- <-. simpl in Hl. apply app_inv_head in Hl. subst evs.
    simpl in Hin. destruct Hin as [H | [H | [H | []]]]; discriminate H.
Qed.

End EmptyInputs.

(** C10. [get_topic] returns the typed text without its leading and
    trailing whitespace.  So a topic made of whitespace only is stripped to
    the empty string, and [main] runs on it exactly as on an empty topic:
    any run that reads it shows the prompt to enter a topic and returns,
    having rendered only the page head and that prompt, with no model call
    (no clarifying question is requested) and the session left as it was. *)
Theorem whitespace_topic_runs_as_empty_topic (w : World) (s : State) :
  get_topic w s
  = (Returned (strip (ui_text w "topic")),
     logged s [EvTextInput "Research topic:" "topic"])
  /\ (exists a b,
        ui_text w "topic" = (a ++ strip (ui_text w "topic") ++ b)%string
        /\ all_space a = true /\ all_space b = true
        /\ head_not_space (strip (ui_text w "topic"))
        /\ last_not_space (strip (ui_text w "topic")))
  /\ (all_space (ui_text w "topic") = true ->
      strip (ui_text w "topic") = EmptyString
      /\ main w s = main (with_text w "topic" EmptyString) s
      /\ forall o s' evs,
           main w s = (o, s') -> log s' = log s ++ evs ->
           In (EvTextInput "Research topic:" "topic") evs ->
           o = Returned tt
           /\ (exists k,
                 evs = page_head k ++ [EvInfo "Enter a research topic to begin."])
           /\ clock s' = clock s
           /\ session_state s' = session_state s).
Proof.
  split; [reflexivity|]. split; [apply strip_spec|].
  intros Hs. apply strip_empty_iff in Hs. split; [exact Hs|]. split.
  - rewrite !main_unfold. simpl OPENAI_API_KEY.
    destruct (OPENAI_API_KEY w) as [k|]; [|reflexivity].
    destruct (is_empty_str k); [reflexivity|]. cbv zeta.
    rewrite Hs. reflexivity.
  - intros o s' evs Hm Hl Hin. now apply (empty_topic_run w s s' o evs).
Qed.

(** * Runs on the example worlds *)

Section Examples.

Lemma missing_key_halts_on_empty_key :
  OPENAI_API_KEY empty_key_world = Some EmptyString
  /\ main empty_key_world initial_state
     = (Stopped, logged initial_state halted_page).
Proof.
  split; [reflexivity|].
  apply (missing_key_halts empty_key_world initial_state).
  right. reflexivity.
Defined.

Lemma evaluate_says_yes :
  evaluate sample_world sample_client (PStr "compare heat pumps") [] (state_at 2)
  = (Returned true,
     called (state_at 2) (review_request (PStr "compare heat pumps") []))
  /\ exists review t,
       responses_create sample_world 2
         (review_request (PStr "compare heat pumps") []) = Some review
       /\ output_text review 0 = inr t
       /\ (true = true <-> exists pre post, lower t = (pre ++ "yes" ++ post)%string).
Proof.
  split; [reflexivity|].
  apply (evaluate_true_only_if_yes sample_world sample_client
           (PStr "compare heat pumps") [] (state_at 2)
           (called (state_at 2) (review_request (PStr "compare heat pumps") []))).
  reflexivity.
Defined.

Lemma two_questions_asked :
  get_clarifying_questions sample_world sample_client "heat pumps" initial_state
  = (Returned ["1. Why?"; "2. Where?"],
     called initial_state (clarify_request "heat pumps")).
Proof.
  apply (clarifying_questions_are_the_split_text sample_world sample_client
           "heat pumps" initial_state
           (message "resp_0" ("1. Why?" ++ nl ++ "2. Where?"))
           ("1. Why?" ++ nl ++ "2. Where?")).
  - reflexivity.
  - reflexivity.
Defined.

Lemma two_answers_typed :
  exists answers,
    get_answers sample_world ["1. Why?"; "2. Where?"] initial_state
    = (Returned answers,
       logged initial_state (answer_inputs 0 ["1. Why?"; "2. Where?"]))
    /\ length answers = 2
    /\ (forall i q, nth_error ["1. Why?"; "2. Where?"] i = Some q ->
          nth_error answers i = Some (ui_text sample_world (answer_key i))
          /\ nth_error (answer_inputs 0 ["1. Why?"; "2. Where?"]) i
             = Some (EvTextInput q (answer_key i)))
    /\ (forall i j, answer_key i = answer_key j -> i = j).
Proof.
  exact (answers_align_with_questions sample_world ["1. Why?"; "2. Where?"]
           initial_state).
Defined.

Lemma repeated_query_searched_once :
  exists searched,
    log (snd (research_loop sample_world sample_client (PList sample_queries)
                sample_queries [] (state_at 2)))
    = log (state_at 2) ++ search_events (clock (state_at 2)) searched
    /\ clock (snd (research_loop sample_world sample_client (PList sample_queries)
                     sample_queries [] (state_at 2)))
       = clock (state_at 2) + length searched
    /\ (forall pre q post, searched = pre ++ q :: post ->
          In q sample_queries /\ already_collected q [] = false
          /\ Forall (fun p => py_eq p q = false) pre)
    /\ (forall c',
          fst (research_loop sample_world sample_client (PList sample_queries)
                 sample_queries [] (state_at 2)) = Returned c' ->
          exists added, c' = [] ++ added /\ map query added = searched)
    /\ (Forall (fun q => already_collected q [] = true) sample_queries ->
          fst (research_loop sample_world sample_client (PList sample_queries)
                 sample_queries [] (state_at 2)) = Returned []
          /\ snd (research_loop sample_world sample_client (PList sample_queries)
                    sample_queries [] (state_at 2)) = state_at 2).
Proof.
  apply (research_loop_searches_only_new_queries sample_world sample_client
           (PList sample_queries) sample_queries [] (state_at 2)).
  reflexivity.
Defined.

Lemma sample_run_keeps_queries_distinct :
  distinct_queries (collected_of initial_state)
  /\ distinct_queries (collected_of (snd (main unsatisfied_world initial_state))).
Proof.
  assert (H : distinct_queries (collected_of initial_state)) by constructor.
  split; [exact H|].
  exact (proj1 (proj2 collected_queries_stay_distinct)
           unsatisfied_world initial_state H).
Defined.

Ltac sample_run_reaches_evaluation :=
  exists "sk-test", ["1. Why?"; "2. Where?"];
  eexists; exists (sample_plan, "resp_1");
  eexists; exists (PList sample_queries), sample_queries;
  split; [reflexivity|]; split; [discriminate|]; split; [reflexivity|];
  split; [discriminate|]; split; [lazy; reflexivity|]; split; [reflexivity|];
  split; [lazy; reflexivity|]; split; [reflexivity|]; split; [reflexivity|];
  split; [reflexivity|]; split; [reflexivity|]; split; [reflexivity|];
  lazy; reflexivity.

Lemma sample_runs_update_session :
  (fst (main sample_world initial_state) = Returned tt
   /\ ss_research_started (session_state (snd (main sample_world initial_state)))
      = Some false
   /\ ss_collected (session_state (snd (main sample_world initial_state)))
      = Some [])
  /\ (fst (main unsatisfied_world initial_state) = Returned tt
      /\ ss_queries (session_state (snd (main unsatisfied_world initial_state)))
         = Some (PList [PStr "heat pump grants"])
      /\ map query (collected_of (snd (main unsatisfied_world initial_state)))
         = [PStr "heat pump cost"; PStr "heat pump noise"]).
Proof.
  split.
  - edestruct (evaluation_branches_update_session sample_world initial_state)
      as [T _].
    + sample_run_reaches_evaluation.
    + lazy. reflexivity.
    + rewrite (T eq_refl "Yes." _ eq_refl). repeat split.
  - edestruct (evaluation_branches_update_session unsatisfied_world initial_state)
      as [_ F].
    + sample_run_reaches_evaluation.
    + lazy. reflexivity.
    + destruct (F eq_refl _ _ (surjective_pairing _)) as (_ & Q & _).
      destruct (Q (message "resp_more" "MORE") "MORE"
                  (PList [PStr "heat pump grants"]) eq_refl eq_refl eq_refl)
        as [Ho Hs].
      unfold collected_of. rewrite Ho, Hs. repeat split.
Defined.

Lemma garbled_answers_end_the_run :
  (log (snd (main garbled_world initial_state))
   = log initial_state
     ++ (page_head "sk-test"
         ++ [EvApiCall 0 (clarify_request "heat pumps")]
         ++ answer_inputs 0 ["1. Why?"; "2. Where?"])
     ++ [EvApiCall 1 (plan_request "heat pumps" ["home"; "home"] None)]
   /\ json_loads garbled_world "PLAN" = None
   /\ fst (main garbled_world initial_state) = Raised JSONDecodeError)
  /\ (log (snd (main garbled_more_world initial_state))
      = log initial_state
        ++ (page_head "sk-test"
            ++ [EvApiCall 0 (clarify_request "heat pumps")]
            ++ answer_inputs 0 ["1. Why?"; "2. Where?"]
            ++ [EvApiCall 1 (plan_request "heat pumps" ["home"; "home"] None)]
            ++ plan_shown (PStr "compare heat pumps") (PList sample_queries)
            ++ [EvButton "Run Research" "run_research"]
            ++ search_events 2 [PStr "heat pump cost"; PStr "heat pump noise"]
            ++ [EvApiCall 4 (review_request (PStr "compare heat pumps")
                               sample_results)])
        ++ [EvApiCall 5 (more_request sample_results "resp_1")]
      /\ json_loads garbled_more_world "MORE" = None
      /\ fst (main garbled_more_world initial_state) = Raised JSONDecodeError).
Proof.
  split.
  - assert (L : log (snd (main garbled_world initial_state))
                = log initial_state
                  ++ (page_head "sk-test"
                      ++ [EvApiCall 0 (clarify_request "heat pumps")]
                      ++ answer_inputs 0 ["1. Why?"; "2. Where?"])
                  ++ [EvApiCall 1 (plan_request "heat pumps" ["home"; "home"] None)])
      by reflexivity.
    split; [exact L|]. split; [reflexivity|].
    apply (proj2 (malformed_json_ends_the_run garbled_world)
             initial_state _ _ _ _ _ []
             (message "resp_1" "PLAN") "PLAN"
             (surjective_pairing _) L).
    + left. now exists "heat pumps", ["home"; "home"], None.
    + reflexivity.
    + reflexivity.
    + reflexivity.
  - assert (L : log (snd (main garbled_more_world initial_state))
                = log initial_state
                  ++ (page_head "sk-test"
                      ++ [EvApiCall 0 (clarify_request "heat pumps")]
                      ++ answer_inputs 0 ["1. Why?"; "2. Where?"]
                      ++ [EvApiCall 1 (plan_request "heat pumps" ["home"; "home"] None)]
                      ++ plan_shown (PStr "compare heat pumps") (PList sample_queries)
                      ++ [EvButton "Run Research" "run_research"]
                      ++ search_events 2 [PStr "heat pump cost"; PStr "heat pump noise"]
                      ++ [EvApiCall 4 (review_request (PStr "compare heat pumps")
                                         sample_results)])
                  ++ [EvApiCall 5 (more_request sample_results "resp_1")])
      by reflexivity.
    split; [exact L|]. split; [reflexivity|].
    apply (proj2 (malformed_json_ends_the_run garbled_more_world)
             initial_state _ _ _ _ _ []
             (message "resp_more" "MORE") "MORE"
             (surjective_pairing _) L).
    + right. now exists sample_results, "resp_1".
    + reflexivity.
    + reflexivity.
    + reflexivity.
Defined.

End Examples.

(** * More runs on the example worlds *)

Section MoreExamples.

Lemma sample_search_reads_two_items :
  run_search sample_world sample_client (PStr "heat pump cost") (state_at 2)
  = (Returned {| query := PStr "heat pump cost"; resp_id := "ws_1";
                 research_output := "found" |},
     called (state_at 2) (search_request (PStr "heat pump cost"))).
Proof.
  apply (proj2 (run_search_reads_two_items sample_world sample_client
                  (PStr "heat pump cost") (state_at 2)
                  (search_response "found") eq_refl)
           {| item_id := "ws_1"; content := Absent |}
           {| item_id := "msg_2"; content := Has [{| text := Some "found" |}] |}
           []).
  reflexivity.
Defined.

Lemma capital_yes_counts :
  evaluate sample_world sample_client (PStr "compare heat pumps") [] (state_at 2)
  = (Returned true,
     called (state_at 2) (review_request (PStr "compare heat pumps") [])).
Proof.
  apply (evaluate_ignores_case sample_world sample_client
           (PStr "compare heat pumps") [] (state_at 2)
           (message "resp_n" "Yes.") EmptyString "Yes" ".").
  - reflexivity.
  - reflexivity.
  - reflexivity.
Defined.

Lemma two_questions_round_trip :
  get_clarifying_questions sample_world sample_client "heat pumps" initial_state
  = (Returned ["1. Why?"; "2. Where?"],
     called initial_state (clarify_request "heat pumps")).
Proof.
  apply (clarifying_questions_round_trip sample_world sample_client
           "heat pumps" initial_state
           (message "resp_0" ("1. Why?" ++ nl ++ "2. Where?"))
           ["1. Why?"; "2. Where?"]).
  - discriminate.
  - repeat constructor.
  - reflexivity.
  - reflexivity.
Defined.

Lemma sample_questions_are_reused :
  main_questions unsatisfied_world sample_client "heat pumps"
    (with_session (called initial_state (clarify_request "heat pumps"))
       (set_last_topic "heat pumps"
          (set_clarify ["1. Why?"; "2. Where?"] empty_session)))
  = (Returned ["1. Why?"; "2. Where?"],
     with_session (called initial_state (clarify_request "heat pumps"))
       (set_last_topic "heat pumps"
          (set_clarify ["1. Why?"; "2. Where?"] empty_session))).
Proof.
  apply (proj2 (proj2 (questions_are_cached_by_topic sample_world sample_client
                         "heat pumps" initial_state))
           ["1. Why?"; "2. Where?"] _ eq_refl unsatisfied_world sample_client).
Defined.

Lemma sample_plan_is_reused :
  main_plan unsatisfied_world sample_client "solar panels" ["home"; "home"]
    (with_session
       (called (state_at 1) (plan_request "heat pumps" ["home"; "home"] None))
       (set_last_answers ["home"; "home"]
          (set_clarify_id "resp_1" (set_goal_plan sample_plan empty_session))))
  = (Returned (sample_plan, "resp_1"),
     with_session
       (called (state_at 1) (plan_request "heat pumps" ["home"; "home"] None))
       (set_last_answers ["home"; "home"]
          (set_clarify_id "resp_1" (set_goal_plan sample_plan empty_session)))).
Proof.
  apply (proj1 (plan_is_cached_by_answers sample_world sample_client
                  "heat pumps" ["home"; "home"] (state_at 1) _
                  (sample_plan, "resp_1") eq_refl)
           unsatisfied_world sample_client "solar panels").
Defined.

Lemma empty_list_plan_raises :
  fst (main shapeless_world initial_state) = Raised TypeError
  /\ ss_goal_plan (session_state (snd (main shapeless_world initial_state)))
     = Some (PList []).
Proof.
  pose (s1 := with_session
                (called (logged initial_state (page_head "sk-test"))
                   (clarify_request "heat pumps"))
                (set_last_topic "heat pumps"
                   (set_clarify ["1. Why?"; "2. Where?"] empty_session))).
  pose (s3 := with_session
                (called (logged s1 (answer_inputs 0 ["1. Why?"; "2. Where?"]))
                   (plan_request "heat pumps" ["home"; "home"] None))
                (set_last_answers ["home"; "home"]
                   (set_clarify_id "resp_1"
                      (set_goal_plan (PList []) (session_state s1))))).
  destruct (misshapen_plan_is_cached shapeless_world initial_state s1 s3
              "sk-test" ["1. Why?"; "2. Where?"] (PList [], "resp_1") TypeError)
    as (Hm & _ & Hp & _).
  - reflexivity.
  - discriminate.
  - discriminate.
  - reflexivity.
  - reflexivity.
  - reflexivity.
  - left. reflexivity.
  - rewrite Hm. split; [reflexivity | exact Hp].
Defined.

Lemma second_pass_searches_nothing :
  research_loop unsatisfied_world sample_client (PList sample_queries)
    sample_queries sample_results (state_at 7)
  = (Returned sample_results, state_at 7).
Proof.
  apply (research_loop_is_idempotent sample_world sample_client
           (PList sample_queries) sample_queries [] sample_results
           (state_at 2)
           (snd (research_loop sample_world sample_client (PList sample_queries)
                   sample_queries [] (state_at 2)))).
  - reflexivity.
  - repeat constructor.
Defined.

Lemma three_queries_two_calls :
  fst (research_loop sample_world sample_client (PList sample_queries)
         sample_queries [] (state_at 2)) <> Stopped
  /\ clock (state_at 2)
     <= clock (snd (research_loop sample_world sample_client
                      (PList sample_queries) sample_queries [] (state_at 2)))
     <= clock (state_at 2) + length sample_queries.
Proof.
  apply (research_loop_calls_are_bounded sample_world sample_client
           (PList sample_queries) sample_queries [] (state_at 2)).
  apply surjective_pairing.
Defined.

Lemma number_as_queries_raises :
  main_research sample_world sample_client (PStr "compare heat pumps")
    (PList sample_queries) "resp_1" stuck_state
  = (Raised TypeError,
     with_session (logged stuck_state [EvButton "Run Research" "run_research"])
       (set_research_started true (session_state stuck_state))).
Proof.
  exact (proj1 (unusable_queries_block_the_research sample_world sample_client
                  (PStr "compare heat pumps") (PList sample_queries) "resp_1"
                  stuck_state TypeError (or_intror eq_refl) eq_refl)).
Defined.

Lemma started_research_ignores_the_button :
  main (with_button sample_world false) stuck_state = main sample_world stuck_state.
Proof.
  apply (research_continues_without_click sample_world false stuck_state).
  reflexivity.
Defined.

Lemma sample_progress_is_kept :
  exists added,
    collected_of (snd (research_loop sample_world sample_client
                         (PList sample_queries) sample_queries
                         (collected_of (state_at 2)) (state_at 2)))
    = collected_of (state_at 2) ++ added
    /\ clock (snd (research_loop sample_world sample_client
                     (PList sample_queries) sample_queries
                     (collected_of (state_at 2)) (state_at 2)))
       = clock (state_at 2) + length added
         + match fst (research_loop sample_world sample_client
                        (PList sample_queries) sample_queries
                        (collected_of (state_at 2)) (state_at 2))
           with Raised _ => 1 | _ => 0 end
    /\ (forall c',
          fst (research_loop sample_world sample_client
                 (PList sample_queries) sample_queries
                 (collected_of (state_at 2)) (state_at 2)) = Returned c' ->
          c' = collected_of
                 (snd (research_loop sample_world sample_client
                         (PList sample_queries) sample_queries
                         (collected_of (state_at 2)) (state_at 2)))).
Proof.
  apply (research_progress_is_kept sample_world sample_client
           (PList sample_queries) sample_queries (state_at 2)).
  apply surjective_pairing.
Defined.

Lemma empty_inputs_on_the_sample_page :
  (main (with_text sample_world "topic" EmptyString) initial_state
   = (Returned tt,
      logged initial_state
        (page_head "sk-test" ++ [EvInfo "Enter a research topic to begin."]))
   /\ exists k,
        page_head "sk-test" ++ [EvInfo "Enter a research topic to begin."]
        = page_head k ++ [EvInfo "Enter a research topic to begin."])
  /\ (main (with_text sample_world "answer_1" EmptyString) initial_state
      = (Returned tt,
         logged
           (with_session
              (called (logged initial_state (page_head "sk-test"))
                 (clarify_request "heat pumps"))
              (set_last_topic "heat pumps"
                 (set_clarify ["1. Why?"; "2. Where?"] empty_session)))
           (answer_inputs 0 ["1. Why?"; "2. Where?"]
            ++ [EvInfo "Please answer all clarifying questions."]))
      /\ forall n r,
           In (EvApiCall n r)
             (page_head "sk-test"
              ++ [EvApiCall 0 (clarify_request "heat pumps")]
              ++ answer_inputs 0 ["1. Why?"; "2. Where?"]
              ++ [EvInfo "Please answer all clarifying questions."]) ->
           r = clarify_request
                 (strip (ui_text (with_text sample_world "answer_1" EmptyString)
                           "topic"))).
Proof.
  split.
  - assert (Hm : main (with_text sample_world "topic" EmptyString) initial_state
                 = (Returned tt,
                    logged initial_state
                      (page_head "sk-test"
                       ++ [EvInfo "Enter a research topic to begin."])))
      by reflexivity.
    split; [exact Hm|].
    apply (proj1 (empty_inputs_return_early
                    (with_text sample_world "topic" EmptyString)
                    initial_state _ _
                    (page_head "sk-test"
                     ++ [EvInfo "Enter a research topic to begin."])
                    Hm eq_refl)).
    + simpl. do 3 right. left. reflexivity.
    + reflexivity.
  - assert (Hm : main (with_text sample_world "answer_1" EmptyString) initial_state
                 = (Returned tt,
                    logged
                      (with_session
                         (called (logged initial_state (page_head "sk-test"))
                            (clarify_request "heat pumps"))
                         (set_last_topic "heat pumps"
                            (set_clarify ["1. Why?"; "2. Where?"] empty_session)))
                      (answer_inputs 0 ["1. Why?"; "2. Where?"]
                       ++ [EvInfo "Please answer all clarifying questions."])))
      by reflexivity.
    split; [exact Hm|].
    apply (proj2 (empty_inputs_return_early
                    (with_text sample_world "answer_1" EmptyString)
                    initial_state _ _
                    (page_head "sk-test"
                     ++ [EvApiCall 0 (clarify_request "heat pumps")]
                     ++ answer_inputs 0 ["1. Why?"; "2. Where?"]
                     ++ [EvInfo "Please answer all clarifying questions."])
                    Hm eq_refl)).
    + discriminate.
    + exists 1, "2. Where?". split; [|reflexivity].
      simpl. do 6 right. left. reflexivity.
Defined.

Lemma three_spaces_are_no_topic :
  all_space (ui_text (with_text sample_world "topic" "   ") "topic") = true
  /\ main (with_text sample_world "topic" "   ") initial_state
     = (Returned tt,
        logged initial_state
          (page_head "sk-test" ++ [EvInfo "Enter a research topic to begin."]))
  /\ exists k,
       page_head "sk-test" ++ [EvInfo "Enter a research topic to begin."]
       = page_head k ++ [EvInfo "Enter a research topic to begin."].
Proof.
  assert (Hm : main (with_text sample_world "topic" "   ") initial_state
               = (Returned tt,
                  logged initial_state
                    (page_head "sk-test"
                     ++ [EvInfo "Enter a research topic to begin."])))
    by reflexivity.
  split; [reflexivity|]. split; [exact Hm|].
  apply (proj2 (proj2 (proj2 (proj2 (whitespace_topic_runs_as_empty_topic
                                       (with_text sample_world "topic" "   ")
                                       initial_state))
                               eq_refl))
           _ _ (page_head "sk-test" ++ [EvInfo "Enter a research topic to begin."])
           Hm eq_refl).
  simpl. do 3 right. left. reflexivity.
Defined.

End MoreExamples.
